(** * clipdeck/api-client: request pipeline and error normalisation

    A shallow embedding of [src/errors/index.ts] (ApiError, handleApiError),
    [src/client.ts] (ClientConfig, BaseClient) and the resource clients under
    [src/services/], followed by the properties of the pipeline.

    Values whose TypeScript type is [unknown] or [any] (caught errors,
    response bodies, payloads) are modelled as untyped JavaScript values;
    values with a declared type keep it ([string | null] is [option string],
    [timeout?: number] is [option Number]). *)

From stdpp Require Import base strings list gmap.
From Stdlib Require Import ZArith DecimalString.

Set Warnings "-register-all".
Open Scope string_scope.

(** ** JavaScript values *)

Module Js.

(** The numbers: [NaN] and the integers that a double holds exactly and
    prints digit by digit, those of magnitude at most [2^53 - 1] (status
    codes, timeouts, page numbers).  Fractions, larger magnitudes and the
    infinities are left out; like every number here except [NaN] and [0]
    they are truthy and convert to a string without an exception.  [-0]
    is [0]: the two are equal, both falsy and both printed as ['0']. *)
Definition is_safe_integer (n : Z) : bool := (Z.abs n <=? 9007199254740991)%Z.

Inductive Number : Type :=
| NaN
| Int (n : Z) (safe : Is_true (is_safe_integer n)).

(** Integer literals.  The image of an integer outside the range is of no
    use; no statement applies [of_Z] to anything but a literal in range. *)
Definition of_Z (n : Z) : Number :=
  match decide (Is_true (is_safe_integer n)) with
  | left safe => Int n safe
  | right _ => NaN
  end.
Coercion of_Z : Z >-> Number.
Bind Scope Z_scope with Number.

(** The run-time values the client handles.  [Obj err fields] is an
    object whose properties are data: [fields] lists its own properties
    and, for an instance of a subclass of [Error], what the subclass
    prototype provides (such as [name]).  With [err = false] the object
    inherits from [Object.prototype] directly, as object literals and parsed
    JSON do; with [err = true] [Error.prototype] is on its prototype chain,
    which is what [instanceof Error] tests.  No property is a function. *)
Inductive Value : Type :=
| Undefined
| Null
| Bool (b : bool)
| Num (n : Number)
| Str (s : string)
| Obj (err : bool) (fields : list (string * Value))
| Arr (items : list Value).

(** Evaluation either completes with a value or throws one. *)
Inductive Completion (A : Type) : Type :=
| Normal (a : A)
| Throw (reason : Value).
Arguments Normal {A} a.
Arguments Throw {A} reason.

#[export] Instance completion_ret : MRet Completion := @Normal.
#[export] Instance completion_bind : MBind Completion :=
  fun A B f c => match c with Normal a => f a | Throw e => Throw e end.

(** ToBoolean: [undefined], [null], [false], [0], [NaN] and [''] are
    falsy. *)
Definition truthy (v : Value) : bool :=
  match v with
  | Undefined | Null => false
  | Bool b => b
  | Num NaN => false
  | Num (Int n _) => negb (n =? 0)%Z
  | Str s => negb (String.eqb s "")
  | Obj _ _ | Arr _ => true
  end.

(** Own property of an object literal. *)
Fixpoint field (k : string) (fields : list (string * Value)) : option Value :=
  match fields with
  | [] => None
  | (k', v) :: rest => if String.eqb k k' then Some v else field k rest
  end.

Definition TypeError (msg : string) : Value :=
  Obj true [("name", Str "TypeError"); ("message", Str msg)].

(** Property read [v.k].  Reading a property of [undefined] or [null]
    throws a TypeError.  An Error instance without an own [message]
    inherits the empty string from [Error.prototype].  The keys this
    program reads ([response], [request], [data], [status], [error],
    [code], [message], [details], [isAxiosError]) are not built-in
    properties of strings, numbers, booleans or arrays, so reading them
    from such a value gives [undefined]. *)
Definition get (v : Value) (k : string) : Completion Value :=
  match v with
  | Undefined | Null => Throw (TypeError ("Cannot read properties of nullish value: " ++ k))
  | Obj err fields =>
      match field k fields with
      | Some x => Normal x
      | None => Normal (if err && String.eqb k "message" then Str "" else Undefined)
      end
  | Bool _ | Num _ | Str _ | Arr _ => Normal Undefined
  end.

(** Optional chaining [c?.k]: short-circuits to [undefined] on a nullish
    receiver. *)
Definition get_opt (c : Completion Value) (k : string) : Completion Value :=
  v ← c;
  match v with
  | Undefined | Null => Normal Undefined
  | _ => get v k
  end.

(** [a || b] and [a && b], with the right operand evaluated on demand. *)
Definition or_else (a b : Completion Value) : Completion Value :=
  v ← a; if truthy v then Normal v else b.

Definition and_then (a b : Completion Value) : Completion Value :=
  v ← a; if truthy v then b else Normal v.

(** [e instanceof Error]. *)
Definition instanceof_Error (v : Value) : bool :=
  match v with
  | Obj err _ => err
  | _ => false
  end.

(** Number::toString on the numbers above. *)
Definition Number_toString (n : Number) : string :=
  match n with
  | NaN => "NaN"
  | Int n _ => NilZero.string_of_int (Z.to_int n)
  end.

(** What ToPrimitive throws for an object that no method converts. *)
Definition conversion_error : Value :=
  TypeError "Cannot convert object to primitive value".

Definition has_own (k : string) (fields : list (string * Value)) : bool :=
  match field k fields with
  | Some _ => true
  | None => false
  end.

(** ToString.  A primitive has its literal form.  An object is converted
    by its [toString] method and, failing that, its [valueOf]: an own
    [toString] property hides the inherited method and, being data, cannot
    be called, and [valueOf] then gives back an object or cannot be called
    either, so the conversion throws a TypeError.  Otherwise the inherited
    method answers: [Object.prototype.toString] for a plain object,
    [Error.prototype.toString] for an Error instance (its [name], ['Error']
    by default, and its [message], [''] by default, joined by [': '] when
    both are non-empty), [Array.prototype.toString] for an array (the
    elements converted and joined by commas, [undefined] and [null] giving
    the empty string). *)
Fixpoint ToString (v : Value) : Completion string :=
  match v with
  | Undefined => Normal "undefined"
  | Null => Normal "null"
  | Bool b => Normal (if b then "true" else "false")
  | Num n => Normal (Number_toString n)
  | Str s => Normal s
  | Arr items =>
      (fix join (xs : list Value) : Completion string :=
         match xs with
         | [] => Normal ""
         | x :: rest =>
             s ← match x with
                 | Undefined | Null => Normal ""
                 | _ => ToString x
                 end;
             match rest with
             | [] => Normal s
             | _ => t ← join rest; Normal (s ++ "," ++ t)
             end
         end) items
  | Obj err fields =>
      if has_own "toString" fields
      then Throw conversion_error
      else if err then
        name ← (fix own (fs : list (string * Value)) : Completion string :=
                  match fs with
                  | [] => Normal "Error"
                  | (k, x) :: rest =>
                      if String.eqb "name" k
                      then match x with
                           | Undefined => Normal "Error"
                           | _ => ToString x
                           end
                      else own rest
                  end) fields;
        msg ← (fix own (fs : list (string * Value)) : Completion string :=
                 match fs with
                 | [] => Normal ""
                 | (k, x) :: rest =>
                     if String.eqb "message" k
                     then match x with
                          | Undefined => Normal ""
                          | _ => ToString x
                          end
                     else own rest
                 end) fields;
        Normal (if String.eqb name "" then msg
                else if String.eqb msg "" then name
                else name ++ ": " ++ msg)
      else Normal "[object Object]"
  end.

(** What [new Error(message)] stores as the message: nothing for
    [undefined], so that the inherited [''] is read, and the string
    conversion of anything else. *)
Definition Error_message (message : Value) : Completion string :=
  match message with
  | Undefined => Normal ""
  | _ => ToString message
  end.

End Js.

Import Js.

(** ** The transport library's error test

    [axios.isAxiosError(payload)] is
    [isObject(payload) && payload.isAxiosError === true]; the test-suite
    installs the same predicate, [err?.isAxiosError === true]. *)

Module axios.

Definition isAxiosError (payload : Value) : bool :=
  match payload with
  | Obj _ fields =>
      match field "isAxiosError" fields with
      | Some (Bool true) => true
      | _ => false
      end
  | _ => false
  end.

End axios.

(** ** src/errors/index.ts *)

(** An instance of [class ApiError extends Error]: [code], [status] and
    [details] as the constructor was given them, and the [message] that
    [Error] stored, a string.  [new_ApiError] only names the instance with
    these four fields; the expression [new ApiError(...)] of the source is
    [construct_ApiError] below. *)
Record ApiError : Type := new_ApiError {
  code : Value;
  message : string;
  status : Value;
  details : Value;
}.

(** The instance as a value: an Error instance named ['ApiError']. *)
Definition ApiError_value (e : ApiError) : Value :=
  Obj true [("name", Str "ApiError"); ("message", Str (message e)); ("code", code e);
            ("status", status e); ("details", details e)].

(** [new ApiError(code, message, status, details)]: [super(message)] runs
    first and throws when the message cannot be converted to a string. *)
Definition construct_ApiError (code message status details : Value)
  : Completion ApiError :=
  m ← Error_message message;
  Normal (new_ApiError code m status details).

(** The body of the first branch of [handleApiError]. *)
Definition from_response (error : Value) : Completion ApiError :=
  response ← get error "response";
  data ← get response "data";
  c ← or_else (get_opt (get_opt (Normal data) "error") "code") (Normal (Str "UNKNOWN_ERROR"));
  m ← or_else (or_else (get_opt (get_opt (Normal data) "error") "message")
                       (get error "message"))
              (Normal (Str "Unknown error"));
  s ← get response "status";
  d ← get_opt (get_opt (Normal data) "error") "details";
  construct_ApiError c m s d.

Definition handleApiError (error : Value) : Completion ApiError :=
  c1 ← and_then (Normal (Bool (axios.isAxiosError error))) (get error "response");
  if truthy c1 then from_response error
  else
    c2 ← and_then (Normal (Bool (axios.isAxiosError error))) (get error "request");
    if truthy c2 then
      construct_ApiError (Str "NETWORK_ERROR")
        (Str "Network error - unable to reach server") (Num 0) Undefined
    else if instanceof_Error error then
      m ← get error "message";
      construct_ApiError (Str "CLIENT_ERROR") m (Num 0) Undefined
    else
      construct_ApiError (Str "UNKNOWN_ERROR") (Str "An unknown error occurred")
        (Num 0) Undefined.

(** ** Promises

    An asynchronous computation runs against the outside world (the remote
    API, the caller's token store) and settles: fulfilled with a value or
    rejected with a reason. *)

Definition Promise (World A : Type) : Type := World → Completion A * World.

#[export] Instance promise_ret {World} : MRet (Promise World) :=
  fun A a w => (Normal a, w).
#[export] Instance promise_bind {World} : MBind (Promise World) :=
  fun A B f p w =>
    match p w with
    | (Normal a, w') => f a w'
    | (Throw e, w') => (Throw e, w')
    end.

Definition reject {World A} (reason : Value) : Promise World A :=
  fun w => (Throw reason, w).

(** ** The transport library's instance

    What the client relies on from an axios instance: [create] keeps the
    given defaults; [get]/[post]/[put]/[patch]/[delete] merge the call's
    arguments with the defaults and run the request through the promise
    chain [request hooks; dispatchRequest; response hooks].  Everything
    between the hooks (serialisation, the network, status validation) is the
    [adapter], a parameter. *)

Inductive Method : Type := GET | POST | PUT | PATCH | DELETE.

(** [AxiosRequestConfig] as a verb method receives it: the query
    parameters, which the resource clients set, and the headers, which a
    caller may add. *)
Record AxiosRequestConfig : Type := {
  params : Value;
  headers : gmap string string;
}.

Record CreateAxiosDefaults : Type := {
  defaults_baseURL : option string;
  defaults_timeout : Number;
  defaults_headers : gmap string string;
}.

(** [InternalAxiosRequestConfig]: the merged configuration that travels
    through the request hooks to the adapter. *)
Record Request : Type := {
  req_method : Method;
  req_url : string;
  req_data : Value;
  req_params : Value;
  req_headers : gmap string string;
  req_baseURL : option string;
  req_timeout : Number;
}.

Record AxiosResponse : Type := {
  data : Value;
  resp_status : Z;
}.

(** A pair of handlers registered with [interceptors.*.use(f, r)]. *)
Record Interceptor (World A : Type) : Type := {
  fulfilled : option (A → Promise World A);
  rejected : option (Value → Promise World A);
}.
Arguments fulfilled {World A} _.
Arguments rejected {World A} _.

Record AxiosInstance (World : Type) : Type := {
  defaults : CreateAxiosDefaults;
  request_interceptors : list (Interceptor World Request);
  response_interceptors : list (Interceptor World AxiosResponse);
}.
Arguments defaults {World} _.
Arguments request_interceptors {World} _.
Arguments response_interceptors {World} _.

Module Axios.
Section Instance.
Context {World : Type}.
Variable adapter : Request → Promise World AxiosResponse.

Definition create (config : CreateAxiosDefaults) : AxiosInstance World :=
  {| defaults := config; request_interceptors := []; response_interceptors := [] |}.

Definition use_request (inst : AxiosInstance World) (h : Interceptor World Request)
  : AxiosInstance World :=
  {| defaults := defaults inst;
     request_interceptors := request_interceptors inst ++ [h];
     response_interceptors := response_interceptors inst |}.

Definition use_response (inst : AxiosInstance World) (h : Interceptor World AxiosResponse)
  : AxiosInstance World :=
  {| defaults := defaults inst;
     request_interceptors := request_interceptors inst;
     response_interceptors := response_interceptors inst ++ [h] |}.

(** [p.then(onFulfilled, onRejected)]; an absent handler passes the
    settlement through. *)
Definition then_ {A} (p : Promise World A) (h : Interceptor World A) : Promise World A :=
  fun w =>
    match p w with
    | (Normal a, w') =>
        match fulfilled h with Some f => f a w' | None => (Normal a, w') end
    | (Throw e, w') =>
        match rejected h with Some r => r e w' | None => (Throw e, w') end
    end.

(** Per-call options over instance defaults; a header given with the call
    wins over the default of the same name. *)
Definition mergeConfig (d : CreateAxiosDefaults) (m : Method) (url : string)
    (body : Value) (config : option AxiosRequestConfig) : Request :=
  {| req_method := m;
     req_url := url;
     req_data := body;
     req_params := match config with Some c => params c | None => Undefined end;
     req_headers := match config with
                    | Some c => headers c ∪ defaults_headers d
                    | None => defaults_headers d
                    end;
     req_baseURL := defaults_baseURL d;
     req_timeout := defaults_timeout d |}.

(** [Axios.prototype.request]: request hooks run last-registered first,
    response hooks in registration order. *)
Definition request (inst : AxiosInstance World) (config : Request)
  : Promise World AxiosResponse :=
  let prepared := foldl then_ (mret config) (rev (request_interceptors inst)) in
  foldl then_ (prepared ≫= adapter) (response_interceptors inst).

Definition get (inst : AxiosInstance World) (url : string)
    (config : option AxiosRequestConfig) : Promise World AxiosResponse :=
  request inst (mergeConfig (defaults inst) GET url Undefined config).

Definition delete (inst : AxiosInstance World) (url : string)
    (config : option AxiosRequestConfig) : Promise World AxiosResponse :=
  request inst (mergeConfig (defaults inst) DELETE url Undefined config).

Definition post (inst : AxiosInstance World) (url : string) (body : Value)
    (config : option AxiosRequestConfig) : Promise World AxiosResponse :=
  request inst (mergeConfig (defaults inst) POST url body config).

Definition put (inst : AxiosInstance World) (url : string) (body : Value)
    (config : option AxiosRequestConfig) : Promise World AxiosResponse :=
  request inst (mergeConfig (defaults inst) PUT url body config).

Definition patch (inst : AxiosInstance World) (url : string) (body : Value)
    (config : option AxiosRequestConfig) : Promise World AxiosResponse :=
  request inst (mergeConfig (defaults inst) PATCH url body config).

End Instance.
End Axios.

(** ** src/client.ts *)

(** [interface ClientConfig].  [baseURL] is declared [string]; the
    declaration is checked by the compiler only, and the constructor reads
    the property as it is at run time, so [None] stands for a configuration
    object without it.  [getToken] resolves to [string | null]. *)
Record ClientConfig (World : Type) : Type := {
  baseURL : option string;
  getToken : option (Promise World (option string));
  timeout : option Number;
}.
Arguments baseURL {World} _.
Arguments getToken {World} _.
Arguments timeout {World} _.

(** [n || d] on [number | undefined]: [undefined], [0] and [NaN] are
    falsy. *)
Definition number_or (n : option Number) (d : Number) : Number :=
  match n with
  | Some v => if truthy (Num v) then v else d
  | None => d
  end.

(** The value of a [string | null] or optional [string], and its rendering
    inside a template literal. *)
Definition of_string (s : option string) : Value :=
  match s with
  | Some v => Str v
  | None => Undefined
  end.

Definition template (s : option string) : string :=
  match s with
  | Some v => v
  | None => "undefined"
  end.

(** [reqConfig.headers.Authorization = value]. *)
Definition set_Authorization (value : string) (q : Request) : Request :=
  {| req_method := req_method q;
     req_url := req_url q;
     req_data := req_data q;
     req_params := req_params q;
     req_headers := <["Authorization" := value]> (req_headers q);
     req_baseURL := req_baseURL q;
     req_timeout := req_timeout q |}.

Module BaseClient.

(** [class BaseClient]: its only field, [protected http: AxiosInstance]. *)
Record t (World : Type) : Type := {
  http : AxiosInstance World;
}.
Arguments http {World} _.

Section Methods.
Context {World : Type}.
Variable adapter : Request → Promise World AxiosResponse.

(** The request hook registered when [config.getToken] is set:
    [async (reqConfig) => { const token = await getToken(); if (token) {
    reqConfig.headers.Authorization = `Bearer ${token}`; } return reqConfig; }] *)
Definition authInterceptor (getToken : Promise World (option string))
    (reqConfig : Request) : Promise World Request :=
  token ← getToken;
  if truthy (of_string token)
  then mret (set_Authorization ("Bearer " ++ template token) reqConfig)
  else mret reqConfig.

(** The response hooks: [(response) => response] and
    [(error) => { throw handleApiError(error); }]. *)
Definition passResponse (response : AxiosResponse) : Promise World AxiosResponse :=
  mret response.

Definition transformError (error : Value) : Promise World AxiosResponse :=
  match handleApiError error with
  | Normal e => reject (ApiError_value e)
  | Throw t => reject t
  end.

(** [constructor(config: ClientConfig)].  A constructor may throw, so it
    returns a completion. *)
Definition constructor (config : ClientConfig World) : Completion (t World) :=
  let http0 := Axios.create
    {| defaults_baseURL := baseURL config;
       defaults_timeout := number_or (timeout config) 10000;
       defaults_headers := {["Content-Type" := "application/json"]} |} in
  let http1 :=
    match getToken config with
    | Some getToken =>
        Axios.use_request http0
          {| fulfilled := Some (authInterceptor getToken); rejected := None |}
    | None => http0
    end in
  let http2 := Axios.use_response http1
    {| fulfilled := Some passResponse; rejected := Some transformError |} in
  Normal {| http := http2 |}.

Definition get (this : t World) (url : string)
    (config : option AxiosRequestConfig) : Promise World Value :=
  response ← Axios.get adapter (http this) url config;
  mret (data response).

Definition post (this : t World) (url : string) (body : Value)
    (config : option AxiosRequestConfig) : Promise World Value :=
  response ← Axios.post adapter (http this) url body config;
  mret (data response).

Definition put (this : t World) (url : string) (body : Value)
    (config : option AxiosRequestConfig) : Promise World Value :=
  response ← Axios.put adapter (http this) url body config;
  mret (data response).

Definition patch (this : t World) (url : string) (body : Value)
    (config : option AxiosRequestConfig) : Promise World Value :=
  response ← Axios.patch adapter (http this) url body config;
  mret (data response).

Definition delete (this : t World) (url : string)
    (config : option AxiosRequestConfig) : Promise World Value :=
  response ← Axios.delete adapter (http this) url config;
  mret (data response).

End Methods.
End BaseClient.

(** ** src/services/: the resource clients

    Every class extends [BaseClient] without adding state; a method is a
    function of the receiver.  Payloads and filters are opaque values; an
    omitted optional argument is [undefined]. *)

(** The object literal [{ params: p }] given as request options. *)
Definition with_params (p : Value) : option AxiosRequestConfig :=
  Some {| params := p; headers := ∅ |}.

Definition of_number (n : option Number) : Value :=
  match n with
  | Some v => Num v
  | None => Undefined
  end.

(** [class CampaignClient extends BaseClient] *)
Module CampaignClient.
Section Methods.
Context {World : Type}.
Variable adapter : Request → Promise World AxiosResponse.
Variable this : BaseClient.t World.

Definition list (filters : Value) : Promise World Value :=
  BaseClient.get adapter this "/campaigns" (with_params filters).

Definition getById (id : string) : Promise World Value :=
  BaseClient.get adapter this ("/campaigns/" ++ id) None.

Definition create (payload : Value) : Promise World Value :=
  BaseClient.post adapter this "/campaigns" payload None.

Definition update (id : string) (payload : Value) : Promise World Value :=
  BaseClient.patch adapter this ("/campaigns/" ++ id) payload None.

Definition join (id : string) : Promise World Value :=
  BaseClient.post adapter this ("/campaigns/" ++ id ++ "/join") Undefined None.

Definition leave (id : string) : Promise World Value :=
  BaseClient.post adapter this ("/campaigns/" ++ id ++ "/leave") Undefined None.

Definition getParticipants (id : string) : Promise World Value :=
  BaseClient.get adapter this ("/campaigns/" ++ id ++ "/participants") None.

Definition updateStatus (id : string) (status : string) : Promise World Value :=
  BaseClient.patch adapter this ("/campaigns/" ++ id ++ "/status") (Obj false [("status", Str status)]) None.

End Methods.
End CampaignClient.

(** [class ClipClient extends BaseClient] *)
Module ClipClient.
Section Methods.
Context {World : Type}.
Variable adapter : Request → Promise World AxiosResponse.
Variable this : BaseClient.t World.

Definition list (filters : Value) : Promise World Value :=
  BaseClient.get adapter this "/clips" (with_params filters).

Definition getById (id : string) : Promise World Value :=
  BaseClient.get adapter this ("/clips/" ++ id) None.

Definition submit (payload : Value) : Promise World Value :=
  BaseClient.post adapter this "/clips" payload None.

Definition updateStatus (id : string) (status : string) (reason : option string) : Promise World Value :=
  BaseClient.patch adapter this ("/clips/" ++ id ++ "/status") (Obj false [("status", Str status); ("reason", of_string reason)]) None.

Definition getStats (id : string) : Promise World Value :=
  BaseClient.get adapter this ("/clips/" ++ id ++ "/stats") None.

Definition getStatsHistory (id : string) : Promise World Value :=
  BaseClient.get adapter this ("/clips/" ++ id ++ "/stats/history") None.

End Methods.
End ClipClient.

(** [class UserClient extends BaseClient] *)
Module UserClient.
Section Methods.
Context {World : Type}.
Variable adapter : Request → Promise World AxiosResponse.
Variable this : BaseClient.t World.

Definition getMe : Promise World Value :=
  BaseClient.get adapter this "/users/me" None.

Definition updateMe (payload : Value) : Promise World Value :=
  BaseClient.patch adapter this "/users/me" payload None.

Definition getProfile : Promise World Value :=
  BaseClient.get adapter this "/users/me/profile" None.

Definition updateProfile (payload : Value) : Promise World Value :=
  BaseClient.patch adapter this "/users/me/profile" payload None.

Definition getById (id : string) : Promise World Value :=
  BaseClient.get adapter this ("/users/" ++ id) None.

Definition getByUsername (username : string) : Promise World Value :=
  BaseClient.get adapter this ("/users/username/" ++ username) None.

Definition search (query : string) (limit : option Number) : Promise World Value :=
  BaseClient.get adapter this "/users/search" (with_params (Obj false [("query", Str query); ("limit", of_number limit)])).

Definition getReferralStats : Promise World Value :=
  BaseClient.get adapter this "/users/me/referrals" None.

Definition generateReferralCode : Promise World Value :=
  BaseClient.post adapter this "/users/me/referrals/generate" Undefined None.

Definition applyReferral (code : string) : Promise World Value :=
  BaseClient.post adapter this "/users/me/referrals/apply" (Obj false [("code", Str code)]) None.

End Methods.
End UserClient.

(** [class NotificationClient extends BaseClient] *)
Module NotificationClient.
Section Methods.
Context {World : Type}.
Variable adapter : Request → Promise World AxiosResponse.
Variable this : BaseClient.t World.

Definition list (params : Value) : Promise World Value :=
  BaseClient.get adapter this "/notifications" (with_params params).

Definition getUnreadCount : Promise World Value :=
  BaseClient.get adapter this "/notifications/unread/count" None.

(** [if (id) { return this.patch(`/notifications/${id}/read`); }
    return this.patch('/notifications/read');] *)
Definition markAsRead (id : option string) : Promise World Value :=
  if truthy (of_string id)
  then BaseClient.patch adapter this ("/notifications/" ++ template id ++ "/read") Undefined None
  else BaseClient.patch adapter this "/notifications/read" Undefined None.

Definition markAllAsRead : Promise World Value :=
  BaseClient.patch adapter this "/notifications/read-all" Undefined None.

Definition remove (id : string) : Promise World Value :=
  _ ← BaseClient.delete adapter this ("/notifications/" ++ id) None;
  mret Undefined.

End Methods.
End NotificationClient.

(** [class BalanceClient extends BaseClient] *)
Module BalanceClient.
Section Methods.
Context {World : Type}.
Variable adapter : Request → Promise World AxiosResponse.
Variable this : BaseClient.t World.

Definition getBalance : Promise World Value :=
  BaseClient.get adapter this "/balance" None.

Definition getTransactions (params : Value) : Promise World Value :=
  BaseClient.get adapter this "/balance/transactions" (with_params params).

Definition requestPayout (payload : Value) : Promise World Value :=
  BaseClient.post adapter this "/balance/payouts" payload None.

End Methods.
End BalanceClient.

(** [class StudioClient extends BaseClient] *)
Module StudioClient.
Section Methods.
Context {World : Type}.
Variable adapter : Request → Promise World AxiosResponse.
Variable this : BaseClient.t World.

Definition list (filters : Value) : Promise World Value :=
  BaseClient.get adapter this "/studios" (with_params filters).

Definition getBySlug (slug : string) : Promise World Value :=
  BaseClient.get adapter this ("/studios/" ++ slug) None.

Definition create (payload : Value) : Promise World Value :=
  BaseClient.post adapter this "/studios" payload None.

Definition update (slug : string) (payload : Value) : Promise World Value :=
  BaseClient.patch adapter this ("/studios/" ++ slug) payload None.

Definition remove (slug : string) : Promise World Value :=
  _ ← BaseClient.delete adapter this ("/studios/" ++ slug) None;
  mret Undefined.

Definition getMembers (slug : string) : Promise World Value :=
  BaseClient.get adapter this ("/studios/" ++ slug ++ "/members") None.

Definition join (slug : string) : Promise World Value :=
  BaseClient.post adapter this ("/studios/" ++ slug ++ "/join") Undefined None.

Definition leave (slug : string) : Promise World Value :=
  BaseClient.post adapter this ("/studios/" ++ slug ++ "/leave") Undefined None.

Definition rate (slug : string) (rating : Number) (review : option string)
  : Promise World Value :=
  BaseClient.post adapter this ("/studios/" ++ slug ++ "/rate") (Obj false [("rating", Num rating); ("review", of_string review)]) None.

Definition getInvites : Promise World Value :=
  BaseClient.get adapter this "/studios/invites" None.

End Methods.
End StudioClient.

(** [class DisputeClient extends BaseClient] *)
Module DisputeClient.
Section Methods.
Context {World : Type}.
Variable adapter : Request → Promise World AxiosResponse.
Variable this : BaseClient.t World.

Definition list (filters : Value) : Promise World Value :=
  BaseClient.get adapter this "/disputes" (with_params filters).

Definition getById (id : string) : Promise World Value :=
  BaseClient.get adapter this ("/disputes/" ++ id) None.

Definition create (payload : Value) : Promise World Value :=
  BaseClient.post adapter this "/disputes" payload None.

Definition getMine : Promise World Value :=
  BaseClient.get adapter this "/disputes/mine" None.

Definition resolve (id : string) (action : string) (notes : option string) : Promise World Value :=
  BaseClient.post adapter this ("/disputes/" ++ id ++ "/resolve") (Obj false [("action", Str action); ("notes", of_string notes)]) None.

End Methods.
End DisputeClient.

(** ** src/index.ts *)

(** [class ClipdeckClient]: one resource client per family, each built from
    the same configuration. *)
Record ClipdeckClient (World : Type) : Type := {
  campaigns : BaseClient.t World;
  clips : BaseClient.t World;
  users : BaseClient.t World;
  notifications : BaseClient.t World;
  balance : BaseClient.t World;
  studios : BaseClient.t World;
  disputes : BaseClient.t World;
}.
Arguments campaigns {World} _.
Arguments clips {World} _.
Arguments users {World} _.
Arguments notifications {World} _.
Arguments balance {World} _.
Arguments studios {World} _.
Arguments disputes {World} _.

Definition new_ClipdeckClient {World} (config : ClientConfig World)
  : Completion (ClipdeckClient World) :=
  c1 ← BaseClient.constructor config;
  c2 ← BaseClient.constructor config;
  c3 ← BaseClient.constructor config;
  c4 ← BaseClient.constructor config;
  c5 ← BaseClient.constructor config;
  c6 ← BaseClient.constructor config;
  c7 ← BaseClient.constructor config;
  Normal {| campaigns := c1; clips := c2; users := c3; notifications := c4;
            balance := c5; studios := c6; disputes := c7 |}.

(** The public surface of a [ClipdeckClient]: every method of every
    resource client, with its arguments. *)
Inductive Operation : Type :=
| campaigns_list (filters : Value)
| campaigns_getById (id : string)
| campaigns_create (payload : Value)
| campaigns_update (id : string) (payload : Value)
| campaigns_join (id : string)
| campaigns_leave (id : string)
| campaigns_getParticipants (id : string)
| campaigns_updateStatus (id : string) (status : string)
| clips_list (filters : Value)
| clips_getById (id : string)
| clips_submit (payload : Value)
| clips_updateStatus (id : string) (status : string) (reason : option string)
| clips_getStats (id : string)
| clips_getStatsHistory (id : string)
| users_getMe
| users_updateMe (payload : Value)
| users_getProfile
| users_updateProfile (payload : Value)
| users_getById (id : string)
| users_getByUsername (username : string)
| users_search (query : string) (limit : option Number)
| users_getReferralStats
| users_generateReferralCode
| users_applyReferral (code : string)
| notifications_list (filters : Value)
| notifications_getUnreadCount
| notifications_markAsRead (id : option string)
| notifications_markAllAsRead
| notifications_remove (id : string)
| balance_getBalance
| balance_getTransactions (filters : Value)
| balance_requestPayout (payload : Value)
| studios_list (filters : Value)
| studios_getBySlug (slug : string)
| studios_create (payload : Value)
| studios_update (slug : string) (payload : Value)
| studios_remove (slug : string)
| studios_getMembers (slug : string)
| studios_join (slug : string)
| studios_leave (slug : string)
| studios_rate (slug : string) (rating : Number) (review : option string)
| studios_getInvites
| disputes_list (filters : Value)
| disputes_getById (id : string)
| disputes_create (payload : Value)
| disputes_getMine
| disputes_resolve (id : string) (action : string) (notes : option string).

Definition perform {World} (adapter : Request → Promise World AxiosResponse)
    (client : ClipdeckClient World) (op : Operation) : Promise World Value :=
  match op with
  | campaigns_list filters => CampaignClient.list adapter (campaigns client) filters
  | campaigns_getById id => CampaignClient.getById adapter (campaigns client) id
  | campaigns_create payload => CampaignClient.create adapter (campaigns client) payload
  | campaigns_update id payload => CampaignClient.update adapter (campaigns client) id payload
  | campaigns_join id => CampaignClient.join adapter (campaigns client) id
  | campaigns_leave id => CampaignClient.leave adapter (campaigns client) id
  | campaigns_getParticipants id => CampaignClient.getParticipants adapter (campaigns client) id
  | campaigns_updateStatus id status => CampaignClient.updateStatus adapter (campaigns client) id status
  | clips_list filters => ClipClient.list adapter (clips client) filters
  | clips_getById id => ClipClient.getById adapter (clips client) id
  | clips_submit payload => ClipClient.submit adapter (clips client) payload
  | clips_updateStatus id status reason => ClipClient.updateStatus adapter (clips client) id status reason
  | clips_getStats id => ClipClient.getStats adapter (clips client) id
  | clips_getStatsHistory id => ClipClient.getStatsHistory adapter (clips client) id
  | users_getMe => UserClient.getMe adapter (users client)
  | users_updateMe payload => UserClient.updateMe adapter (users client) payload
  | users_getProfile => UserClient.getProfile adapter (users client)
  | users_updateProfile payload => UserClient.updateProfile adapter (users client) payload
  | users_getById id => UserClient.getById adapter (users client) id
  | users_getByUsername username => UserClient.getByUsername adapter (users client) username
  | users_search query limit => UserClient.search adapter (users client) query limit
  | users_getReferralStats => UserClient.getReferralStats adapter (users client)
  | users_generateReferralCode => UserClient.generateReferralCode adapter (users client)
  | users_applyReferral code => UserClient.applyReferral adapter (users client) code
  | notifications_list filters => NotificationClient.list adapter (notifications client) filters
  | notifications_getUnreadCount => NotificationClient.getUnreadCount adapter (notifications client)
  | notifications_markAsRead id => NotificationClient.markAsRead adapter (notifications client) id
  | notifications_markAllAsRead => NotificationClient.markAllAsRead adapter (notifications client)
  | notifications_remove id => NotificationClient.remove adapter (notifications client) id
  | balance_getBalance => BalanceClient.getBalance adapter (balance client)
  | balance_getTransactions filters => BalanceClient.getTransactions adapter (balance client) filters
  | balance_requestPayout payload => BalanceClient.requestPayout adapter (balance client) payload
  | studios_list filters => StudioClient.list adapter (studios client) filters
  | studios_getBySlug slug => StudioClient.getBySlug adapter (studios client) slug
  | studios_create payload => StudioClient.create adapter (studios client) payload
  | studios_update slug payload => StudioClient.update adapter (studios client) slug payload
  | studios_remove slug => StudioClient.remove adapter (studios client) slug
  | studios_getMembers slug => StudioClient.getMembers adapter (studios client) slug
  | studios_join slug => StudioClient.join adapter (studios client) slug
  | studios_leave slug => StudioClient.leave adapter (studios client) slug
  | studios_rate slug rating review => StudioClient.rate adapter (studios client) slug rating review
  | studios_getInvites => StudioClient.getInvites adapter (studios client)
  | disputes_list filters => DisputeClient.list adapter (disputes client) filters
  | disputes_getById id => DisputeClient.getById adapter (disputes client) id
  | disputes_create payload => DisputeClient.create adapter (disputes client) payload
  | disputes_getMine => DisputeClient.getMine adapter (disputes client)
  | disputes_resolve id action notes => DisputeClient.resolve adapter (disputes client) id action notes
  end.

(** The resource-client methods, for unfolding them all at once. *)
Create HintDb clients.
#[export] Hint Unfold
  CampaignClient.list CampaignClient.getById CampaignClient.create CampaignClient.update
  CampaignClient.join CampaignClient.leave CampaignClient.getParticipants CampaignClient.updateStatus
  ClipClient.list ClipClient.getById ClipClient.submit ClipClient.updateStatus
  ClipClient.getStats ClipClient.getStatsHistory UserClient.getMe UserClient.updateMe
  UserClient.getProfile UserClient.updateProfile UserClient.getById UserClient.getByUsername
  UserClient.search UserClient.getReferralStats UserClient.generateReferralCode UserClient.applyReferral
  NotificationClient.list NotificationClient.getUnreadCount NotificationClient.markAsRead NotificationClient.markAllAsRead
  NotificationClient.remove BalanceClient.getBalance BalanceClient.getTransactions BalanceClient.requestPayout
  StudioClient.list StudioClient.getBySlug StudioClient.create StudioClient.update
  StudioClient.remove StudioClient.getMembers StudioClient.join StudioClient.leave
  StudioClient.rate StudioClient.getInvites DisputeClient.list DisputeClient.getById
  DisputeClient.create DisputeClient.getMine DisputeClient.resolve BaseClient.get
  BaseClient.post BaseClient.put BaseClient.patch BaseClient.delete
  : clients.

(** ** Observing a client

    The test-suite watches the client through spies on the token getter and
    on the transport.  Here a spy appends an event to a trace kept beside
    the world, so that a run shows how often the getter was asked and which
    requests were handed to the adapter, in order. *)

Inductive Event : Type :=
| TokenRequested
| Sent (q : Request).

Definition watch_getter {W} (g : Promise W (option string))
  : Promise (W * list Event) (option string) :=
  fun '(w, t) => let '(o, w') := g w in (o, (w', (t ++ [TokenRequested])%list)).

Definition watch_adapter {W} (a : Request → Promise W AxiosResponse) (q : Request)
  : Promise (W * list Event) AxiosResponse :=
  fun '(w, t) => let '(o, w') := a q w in (o, (w', (t ++ [Sent q])%list)).

Definition trace_of {W A} (r : Completion A * (W * list Event)) : list Event :=
  snd (snd r).

Definition is_token_request (e : Event) : bool :=
  match e with
  | TokenRequested => true
  | Sent _ => false
  end.

Definition token_requests (t : list Event) : nat :=
  length (List.filter is_token_request t).

(** The five verb methods by method name; [get] and [delete] take no body. *)
Definition verb {World} (adapter : Request → Promise World AxiosResponse)
    (this : BaseClient.t World) (m : Method) (url : string) (body : Value)
    (config : option AxiosRequestConfig) : Promise World Value :=
  match m with
  | GET => BaseClient.get adapter this url config
  | POST => BaseClient.post adapter this url body config
  | PUT => BaseClient.put adapter this url body config
  | PATCH => BaseClient.patch adapter this url body config
  | DELETE => BaseClient.delete adapter this url config
  end.

(** The body a verb method hands to the transport. *)
Definition body_sent (m : Method) (body : Value) : Value :=
  match m with
  | GET | DELETE => Undefined
  | POST | PUT | PATCH => body
  end.

(** ** Vocabulary of the specification *)

(** [v?.k] as a total read, for stating what a caught value carries. *)
Definition read (v : Value) (k : string) : Value :=
  match get_opt (Normal v) k with
  | Normal x => x
  | Throw _ => Undefined
  end.

(** The failure carries a received HTTP response: the guard of the first
    branch. *)
Definition carries_response (e : Value) : Prop :=
  axios.isAxiosError e = true ∧ truthy (read e "response") = true.

(** A request was sent: the second guard, without the precedence. *)
Definition request_sent (e : Value) : Prop :=
  axios.isAxiosError e = true ∧ truthy (read e "request") = true.

(** A field of the conventional envelope [{ error: { code, message, details } }]
    in the response body. *)
Definition envelope (e : Value) (k : string) : Value :=
  read (read (read (read e "response") "data") "error") k.

(** The own properties of the envelope's [error] object, when the body has
    that shape. *)
Definition envelope_fields (e : Value) : option (list (string * Value)) :=
  match read (read (read e "response") "data") "error" with
  | Obj _ fields => Some fields
  | _ => None
  end.

Inductive Branch : Type := ResponsePresent | RequestSent | LocalError | Fallback.

(** The four-way classification with its precedence, as the specification
    words it. *)
Inductive classifies (e : Value) : Branch → Prop :=
| classifies_response :
    carries_response e → classifies e ResponsePresent
| classifies_request :
    ¬ carries_response e → request_sent e → classifies e RequestSent
| classifies_local :
    ¬ carries_response e → ¬ request_sent e → instanceof_Error e = true →
    classifies e LocalError
| classifies_fallback :
    ¬ carries_response e → ¬ request_sent e → instanceof_Error e = false →
    classifies e Fallback.

(** The message the response branch hands to the constructor:
    [data?.error?.message || error.message || 'Unknown error']. *)
Definition reported_message (e : Value) : Value :=
  if truthy (envelope e "message") then envelope e "message"
  else if truthy (read e "message") then read e "message"
  else Str "Unknown error".

(** The code the response branch hands to the constructor:
    [data?.error?.code || 'UNKNOWN_ERROR']. *)
Definition reported_code (e : Value) : Value :=
  if truthy (envelope e "code") then envelope e "code" else Str "UNKNOWN_ERROR".

(** How each branch completes: the two branches with a fixed message
    always return; the other two construct the error from a message found
    in the caught value. *)
Definition branch_outcome (b : Branch) (e : Value) : Completion ApiError :=
  match b with
  | ResponsePresent =>
      construct_ApiError (reported_code e) (reported_message e)
        (read (read e "response") "status") (envelope e "details")
  | RequestSent =>
      Normal (new_ApiError (Str "NETWORK_ERROR")
                "Network error - unable to reach server" (Num 0) Undefined)
  | LocalError =>
      construct_ApiError (Str "CLIENT_ERROR") (read e "message") (Num 0) Undefined
  | Fallback =>
      Normal (new_ApiError (Str "UNKNOWN_ERROR") "An unknown error occurred"
                (Num 0) Undefined)
  end.

(** An own property of the envelope's [error] object, if it has one. *)
Definition envelope_own (e : Value) (k : string) : option Value :=
  fs ← envelope_fields e; field k fs.

(** An own property of the caught value itself. *)
Definition own (e : Value) (k : string) : option Value :=
  match e with
  | Obj _ fields => field k fields
  | _ => None
  end.

(** The response branch read with "present" as "the property exists":
    code and message are taken from the envelope whenever it has them. *)
Definition response_fields_if_present (e : Value) (a : ApiError) : Prop :=
  status a = read (read e "response") "status"
  ∧ code a = default (Str "UNKNOWN_ERROR") (envelope_own e "code")
  ∧ Str (message a) = default (default (Str "Unknown error") (own e "message"))
                              (envelope_own e "message")
  ∧ details a = envelope e "details".

(** [throw handleApiError(error)] as a completion. *)
Definition normalised {A} (error : Value) : Completion A :=
  match handleApiError error with
  | Normal e => Throw (ApiError_value e)
  | Throw t => Throw t
  end.

(** The settlement of a verb method from the settlement of the transport:
    the response hooks, then [response.data]. *)
Definition settled {World} (r : Completion AxiosResponse * World)
  : Completion Value * World :=
  match r with
  | (Normal response, w) => (Normal (data response), w)
  | (Throw e, w) => (normalised e, w)
  end.

(** The request hooks of a client built from [config]: the auth hook when a
    token getter is configured, nothing otherwise. *)
Definition prepare {World} (config : ClientConfig World) (q : Request)
  : Promise World Request :=
  match getToken config with
  | Some g => BaseClient.authInterceptor g q
  | None => mret q
  end.

(** ** Sample values *)

(** The failure of the test-suite's first [handleApiError] case: a 404 with
    a full envelope, carrying both a response and a request. *)
Definition not_found_error : Value :=
  Obj false
    [("isAxiosError", Bool true);
     ("response", Obj false
        [("status", Num 404);
         ("data", Obj false
            [("error", Obj false
                [("code", Str "NOT_FOUND");
                 ("message", Str "Campaign not found");
                 ("details", Obj false [("campaignId", Str "abc")])])])]);
     ("message", Str "Request failed with status code 404");
     ("request", Obj false [])].

(** A 400 whose envelope has an empty [code]. *)
Definition empty_code_error : Value :=
  Obj true
    [("isAxiosError", Bool true);
     ("response", Obj false
        [("status", Num 400);
         ("data", Obj false
            [("error", Obj false
                [("code", Str ""); ("message", Str "Bad input")])])]);
     ("message", Str "Request failed with status code 400");
     ("request", Obj false [])].

(** A 422 whose envelope has a number for message. *)
Definition numeric_message_error : Value :=
  Obj true
    [("isAxiosError", Bool true);
     ("response", Obj false
        [("status", Num 422);
         ("data", Obj false
            [("error", Obj false
                [("code", Str "VALIDATION_ERROR"); ("message", Num 42)])])]);
     ("message", Str "Request failed with status code 422");
     ("request", Obj false [])].

(** A value that cannot be converted to a string: its own [toString] is
    not a function.  As JSON: [{"toString": null}]. *)
Definition unconvertible : Value := Obj false [("toString", Null)].

(** A 500 whose envelope has such a message, and no code. *)
Definition unconvertible_message_error : Value :=
  Obj true
    [("isAxiosError", Bool true);
     ("response", Obj false
        [("status", Num 500);
         ("data", Obj false [("error", Obj false [("message", unconvertible)])])]);
     ("message", Str "Request failed with status code 500");
     ("request", Obj false [])].

(** A 404 of the same kind. *)
Definition unconvertible_404_error : Value :=
  Obj true
    [("isAxiosError", Bool true);
     ("response", Obj false
        [("status", Num 404);
         ("data", Obj false [("error", Obj false [("message", unconvertible)])])]);
     ("message", Str "Request failed with status code 404");
     ("request", Obj false [])].

(** A thrown Error whose message was set to such a value. *)
Definition unconvertible_local_error : Value :=
  Obj true [("message", unconvertible)].

(** A 404 whose body is not an envelope. *)
Definition bare_404_error : Value :=
  Obj true
    [("isAxiosError", Bool true);
     ("response", Obj false
        [("status", Num 404); ("data", Str "<html>Not Found</html>")]);
     ("message", Str "Request failed with status code 404");
     ("request", Obj false [])].

(** A request that timed out: sent, never answered. *)
Definition timeout_error : Value :=
  Obj true
    [("isAxiosError", Bool true);
     ("code", Str "ECONNABORTED");
     ("message", Str "timeout of 10000ms exceeded");
     ("request", Obj false [])].

(** A transport that answers every request with 200 and a fixed body. *)
Definition answering {World} (body : Value) (q : Request)
  : Promise World AxiosResponse :=
  fun w => (Normal {| data := body; resp_status := 200 |}, w).

(** A token store that rotates: each call of the getter takes the next
    token, and yields [null] when none is left. *)
Definition next_token : Promise (list string) (option string) :=
  fun store =>
    match store with
    | [] => (Normal None, [])
    | token :: rest => (Normal (Some token), rest)
    end.

(** The [Authorization] headers of the requests in a trace, in order. *)
Definition authorizations (t : list Event) : list (option string) :=
  omap (fun e => match e with
                 | Sent q => Some (req_headers q !! "Authorization")
                 | TokenRequested => None
                 end) t.

(** The configuration of most test cases: a base address only. *)
Definition plain_config {World} : ClientConfig World :=
  {| baseURL := Some "https://api.test.com"; getToken := None; timeout := None |}.

(** A configuration object without a base address. *)
Definition no_base_config {World} : ClientConfig World :=
  {| baseURL := None; getToken := None; timeout := None |}.

(** A configuration asking for no timeout, axios's meaning of [0]. *)
Definition zero_timeout_config {World} : ClientConfig World :=
  {| baseURL := Some "https://api.test.com"; getToken := None; timeout := Some (of_Z 0) |}.

(** A configuration whose timeout was computed from a missing setting,
    as in [Number(process.env.TIMEOUT)]. *)
Definition nan_timeout_config {World} : ClientConfig World :=
  {| baseURL := Some "https://api.test.com"; getToken := None; timeout := Some NaN |}.

Definition custom_timeout_config {World} : ClientConfig World :=
  {| baseURL := Some "https://api.test.com"; getToken := None; timeout := Some (of_Z 30000) |}.

(** Token getters: [async () => 'my-token'], [async () => ''] and
    [async () => null]. *)
Definition resolves {World} (token : option string) : Promise World (option string) :=
  mret token.

Definition token_config {World} (g : Promise World (option string)) : ClientConfig World :=
  {| baseURL := Some "https://api.test.com"; getToken := Some g; timeout := None |}.

(** The client the constructor returns for [plain_config]. *)
Definition plain_client {World} : BaseClient.t World :=
  {| BaseClient.http :=
       {| defaults :=
            {| defaults_baseURL := Some "https://api.test.com";
               defaults_timeout := 10000;
               defaults_headers := {["Content-Type" := "application/json"]} |};
          request_interceptors := [];
          response_interceptors :=
            [{| fulfilled := Some BaseClient.passResponse;
                rejected := Some BaseClient.transformError |}] |} |}.

(** ** The sentences that do not hold as written

    Each is stated here as it reads, to be tested against the code. *)

(** "If the getter yields a non-null string t, the request's Authorization
    header equals 'Bearer ' followed by t." *)
Definition bearer_for_every_string {W} (adapter : Request → Promise W AxiosResponse)
    (g : Promise W (option string)) (m : Method) (url : string) (body : Value)
    (opts : option AxiosRequestConfig) (w : W) : Prop :=
  ∀ this token w1,
    BaseClient.constructor (token_config (watch_getter g)) = Normal this →
    g w = (Normal (Some token), w1) →
    ∃ q, In (Sent q) (trace_of (verb (watch_adapter adapter) this m url body opts (w, [])))
       ∧ req_headers q !! "Authorization" = Some ("Bearer " ++ token).

(** "For every configuration without a token-getter, no request issued
    through the pipeline ever carries an Authorization header", for a verb
    method. *)
Definition never_carries_Authorization {W} (adapter : Request → Promise W AxiosResponse)
    (config : ClientConfig (W * list Event)) (m : Method) (url : string)
    (body : Value) (opts : option AxiosRequestConfig) (w : W) : Prop :=
  ∀ this,
    BaseClient.constructor config = Normal this →
    ∀ q, In (Sent q) (trace_of (verb (watch_adapter adapter) this m url body opts (w, []))) →
         req_headers q !! "Authorization" = None.

(** Per-call options of a caller that authenticates by itself. *)
Definition own_credentials : AxiosRequestConfig :=
  {| params := Undefined; headers := {["Authorization" := "Basic dXNlcjpwYXNz"]} |}.

(** "For every id supplied, markAsRead(id) issues PATCH to
    /notifications/{id}/read." *)
Definition marks_one_for_every_id {W} (adapter : Request → Promise W AxiosResponse)
    (id : string) (w : W) : Prop :=
  ∀ this,
    BaseClient.constructor (@plain_config (W * list Event)) = Normal this →
    ∃ q, trace_of (NotificationClient.markAsRead (watch_adapter adapter) this (Some id) (w, []))
         = [Sent q]
       ∧ req_method q = PATCH
       ∧ req_url q = "/notifications/" ++ id ++ "/read".

(** "The effective timeout equals the configured timeout value whenever
    one is supplied." *)
Definition timeout_is_the_configured_one {World} (config : ClientConfig World) : Prop :=
  ∀ this n,
    BaseClient.constructor config = Normal this →
    timeout config = Some n →
    defaults_timeout (defaults (BaseClient.http this)) = n.

(** "Construction fails fast with a configuration error when the base
    address is absent." *)
Definition fails_without_base_address {World} (config : ClientConfig World) : Prop :=
  baseURL config = None → ∃ reason, BaseClient.constructor config = Throw reason.

(** ** Further vocabulary and samples *)

Definition is_sent (e : Event) : bool :=
  match e with
  | Sent _ => true
  | TokenRequested => false
  end.

Definition sent_requests (t : list Event) : nat :=
  length (List.filter is_sent t).

(** A configuration whose getter, if any, is watched. *)
Definition watched_config {W} (base : option string)
    (g : option (Promise W (option string))) (tmo : option Number)
  : ClientConfig (W * list Event) :=
  {| baseURL := base; getToken := watch_getter <$> g; timeout := tmo |}.

(** The path under which a resource family lives. *)
Definition family_prefix (op : Operation) : string :=
  match op with
  | campaigns_list _ | campaigns_getById _ | campaigns_create _
  | campaigns_update _ _ | campaigns_join _ | campaigns_leave _
  | campaigns_getParticipants _ | campaigns_updateStatus _ _ => "/campaigns"
  | clips_list _ | clips_getById _ | clips_submit _
  | clips_updateStatus _ _ _ | clips_getStats _
  | clips_getStatsHistory _ => "/clips"
  | users_getMe | users_updateMe _ | users_getProfile
  | users_updateProfile _ | users_getById _ | users_getByUsername _
  | users_search _ _ | users_getReferralStats | users_generateReferralCode
  | users_applyReferral _ => "/users"
  | notifications_list _ | notifications_getUnreadCount
  | notifications_markAsRead _ | notifications_markAllAsRead
  | notifications_remove _ => "/notifications"
  | balance_getBalance | balance_getTransactions _
  | balance_requestPayout _ => "/balance"
  | studios_list _ | studios_getBySlug _ | studios_create _
  | studios_update _ _ | studios_remove _ | studios_getMembers _
  | studios_join _ | studios_leave _ | studios_rate _ _ _
  | studios_getInvites => "/studios"
  | disputes_list _ | disputes_getById _ | disputes_create _
  | disputes_getMine | disputes_resolve _ _ _ => "/disputes"
  end.

(** The seven resource clients of a [ClipdeckClient]. *)
Definition clients_of {World} (client : ClipdeckClient World)
  : list (BaseClient.t World) :=
  [campaigns client; clips client; users client; notifications client;
   balance client; studios client; disputes client].

(** A method either returns what its verb call resolves to, or awaits it
    and returns nothing ([await this.delete(...)] without [return]). *)
Definition finish {World} (discard : bool) (p : Promise World Value)
  : Promise World Value :=
  if discard then _ ← p; mret Undefined else p.

(** The defaults every client of a configuration is created with. *)
Definition defaults_of {World} (config : ClientConfig World) : CreateAxiosDefaults :=
  {| defaults_baseURL := baseURL config;
     defaults_timeout := number_or (timeout config) 10000;
     defaults_headers := {["Content-Type" := "application/json"]} |}.

(** A transport that rejects every request with a fixed reason, and a
    token getter that rejects. *)
Definition failing {World} (reason : Value) (q : Request)
  : Promise World AxiosResponse :=
  reject reason.

Definition rejects {World} (reason : Value) : Promise World (option string) :=
  reject reason.

(** An [ApiError] as a previous call of the client would have thrown it. *)
Definition unauthorized_error : ApiError :=
  new_ApiError (Str "UNAUTHORIZED") "Token expired" (Num 401) Undefined.


(** * Properties *)

(** ** Reading properties *)

#[local] Arguments get_opt : simpl never.
#[local] Arguments read : simpl never.

Lemma get_opt_read (v : Value) (k : string) :
  get_opt (Normal v) k = Normal (read v k).
Proof.
  unfold read, get_opt.
  destruct v as [| | b | n | s | err fs | xs]; simpl; try reflexivity.
  destruct (field k fs); reflexivity.
Qed.

Lemma get_truthy (v : Value) (k : string) :
  truthy v = true → Js.get v k = Normal (read v k).
Proof.
  intros Hv. rewrite <- get_opt_read. unfold get_opt.
  destruct v; simpl in *; try discriminate; reflexivity.
Qed.

Lemma isAxiosError_object (e : Value) :
  axios.isAxiosError e = true → ∃ err fs, e = Obj err fs.
Proof.
  destruct e; simpl; try discriminate. eauto.
Qed.

Lemma get_axios (e : Value) (k : string) :
  axios.isAxiosError e = true → Js.get e k = Normal (read e k).
Proof.
  intros H. destruct (isAxiosError_object e H) as (err & fs & ->).
  apply get_truthy. reflexivity.
Qed.

Lemma carries_response_dec (e : Value) :
  {carries_response e} + {¬ carries_response e}.
Proof.
  unfold carries_response.
  destruct (axios.isAxiosError e); destruct (truthy (read e "response"));
    (left; split; reflexivity) || (right; intros [? ?]; discriminate).
Qed.

Lemma request_sent_dec (e : Value) :
  {request_sent e} + {¬ request_sent e}.
Proof.
  unfold request_sent.
  destruct (axios.isAxiosError e); destruct (truthy (read e "request"));
    (left; split; reflexivity) || (right; intros [? ?]; discriminate).
Qed.

(** ** Conversion to a string *)

(** Induction on values, through the property lists and the arrays. *)
Lemma Value_nested_ind (P : Value → Prop) :
  P Undefined → P Null → (∀ b, P (Bool b)) → (∀ n, P (Num n)) →
  (∀ s, P (Str s)) →
  (∀ err fs, Forall (λ kv, P kv.2) fs → P (Obj err fs)) →
  (∀ xs, Forall P xs → P (Arr xs)) →
  ∀ v, P v.
Proof.
  intros HU HN HB HNum HS HO HA. fix IH 1.
  intros [| | b | n | s | err fs | xs];
    [exact HU | exact HN | apply HB | apply HNum | apply HS | |].
  - apply HO. revert fs. fix IHfs 1.
    intros [| [k x] fs]; constructor; [apply IH | apply IHfs].
  - apply HA. revert xs. fix IHxs 1.
    intros [| x xs]; constructor; [apply IH | apply IHxs].
Qed.

(** The only exception [ToString] raises is the TypeError of an object
    without a usable [toString]. *)
Lemma ToString_throws (v : Value) (t : Value) :
  ToString v = Throw t → t = conversion_error.
Proof.
  revert t. induction v as [| | b | n | s | err fs IH | xs IH]
    using Value_nested_ind; intros t; simpl; try discriminate.
  - destruct (has_own "toString" fs); [intros [= <-]; reflexivity |].
    destruct err; [| discriminate].
    assert (Hown : ∀ d k u,
              (fix own (l : list (string * Value)) : Completion string :=
                 match l with
                 | [] => Normal d
                 | (k', x) :: rest =>
                     if String.eqb k k'
                     then match x with
                          | Undefined => Normal d
                          | _ => ToString x
                          end
                     else own rest
                 end) fs = Throw u → u = conversion_error).
    { intros d k u. induction IH as [| [k' x] rest Hx _ IHfs]; [discriminate |].
      destruct (String.eqb k k'); [| exact IHfs].
      destruct x; try discriminate; apply Hx. }
    intros H.
    match type of H with
    | (?n ≫= _) = _ => destruct n as [name | u] eqn:Hn
    end.
    + simpl in H.
      match type of H with
      | (?m ≫= _) = _ => destruct m as [msg | u] eqn:Hm
      end; [discriminate |].
      simpl in H. injection H as <-. exact (Hown "" "message" u Hm).
    + simpl in H. injection H as <-. exact (Hown "Error" "name" u Hn).
  - induction IH as [| x rest Hx _ IHxs]; [discriminate |].
    intros H.
    match type of H with
    | (?h ≫= _) = _ => destruct h as [s | u] eqn:Hh
    end.
    + simpl in H. destruct rest as [| y rest']; [discriminate |].
      match type of H with
      | (?j ≫= _) = _ => destruct j as [s' | u] eqn:Hj
      end; [discriminate |].
      simpl in H. injection H as <-. apply IHxs. reflexivity.
    + simpl in H. injection H as <-.
      destruct x; try discriminate; apply (Hx _ Hh).
Qed.

Lemma construct_string (c : Value) (s : string) (st d : Value) :
  construct_ApiError c (Str s) st d = Normal (new_ApiError c s st d).
Proof. reflexivity. Qed.

Lemma construct_truthy (c m st d : Value) :
  truthy m = true →
  construct_ApiError c m st d = x ← ToString m; Normal (new_ApiError c x st d).
Proof.
  intros Hm. unfold construct_ApiError, Error_message.
  destruct m; try reflexivity. discriminate Hm.
Qed.


Lemma construct_throws (c m st d : Value) (t : Value) :
  construct_ApiError c m st d = Throw t → t = conversion_error.
Proof.
  unfold construct_ApiError, Error_message.
  destruct m; try discriminate;
    match goal with
    | |- (?x ≫= _) = _ → _ => destruct x as [s | u] eqn:Hx
    end; try discriminate; simpl; intros [= <-]; exact (ToString_throws _ _ Hx).
Qed.

Lemma construct_fields (c m st d : Value) (a : ApiError) :
  construct_ApiError c m st d = Normal a →
  code a = c ∧ status a = st ∧ details a = d ∧ Error_message m = Normal (message a).
Proof.
  unfold construct_ApiError. destruct (Error_message m) as [s | u]; [| discriminate].
  simpl. intros [= <-]. auto.
Qed.

(** ** handleApiError, branch by branch *)

Lemma guard_eval (e : Value) (k : string) :
  Js.and_then (Normal (Bool (axios.isAxiosError e))) (Js.get e k)
  = Normal (if axios.isAxiosError e then read e k else Bool false).
Proof.
  unfold Js.and_then. simpl. destruct (axios.isAxiosError e) eqn:H; simpl.
  - apply get_axios, H.
  - reflexivity.
Qed.

Lemma handle_response (e : Value) :
  carries_response e → handleApiError e = from_response e.
Proof.
  intros [Ha Hr]. unfold handleApiError. rewrite !guard_eval, Ha. simpl.
  rewrite Hr. reflexivity.
Qed.

Lemma not_carries (e : Value) (k : string) (P : Prop) :
  (P ↔ axios.isAxiosError e = true ∧ truthy (read e k) = true) → ¬ P →
  truthy (if axios.isAxiosError e then read e k else Bool false) = false.
Proof.
  intros HP Hn. destruct (axios.isAxiosError e); [| reflexivity].
  destruct (truthy (read e k)) eqn:Ht; [| reflexivity].
  exfalso. apply Hn, HP. split; reflexivity.
Qed.

Lemma handle_request (e : Value) :
  ¬ carries_response e → request_sent e →
  handleApiError e =
  Normal (new_ApiError (Str "NETWORK_ERROR")
            "Network error - unable to reach server" (Num 0) Undefined).
Proof.
  intros Hn [Ha Hq]. unfold handleApiError. rewrite !guard_eval. simpl.
  rewrite (not_carries e "response" (carries_response e)) by (reflexivity || assumption).
  rewrite Ha, Hq. reflexivity.
Qed.

Lemma handle_local (e : Value) :
  ¬ carries_response e → ¬ request_sent e → instanceof_Error e = true →
  handleApiError e =
  construct_ApiError (Str "CLIENT_ERROR") (read e "message") (Num 0) Undefined.
Proof.
  intros Hn Hq He. unfold handleApiError. rewrite !guard_eval. simpl.
  rewrite (not_carries e "response" (carries_response e)) by (reflexivity || assumption).
  rewrite (not_carries e "request" (request_sent e)) by (reflexivity || assumption).
  rewrite He. rewrite get_truthy by (destruct e; simpl in *; congruence).
  reflexivity.
Qed.

Lemma handle_fallback (e : Value) :
  ¬ carries_response e → ¬ request_sent e → instanceof_Error e = false →
  handleApiError e =
  Normal (new_ApiError (Str "UNKNOWN_ERROR") "An unknown error occurred"
            (Num 0) Undefined).
Proof.
  intros Hn Hq He. unfold handleApiError. rewrite !guard_eval. simpl.
  rewrite (not_carries e "response" (carries_response e)) by (reflexivity || assumption).
  rewrite (not_carries e "request" (request_sent e)) by (reflexivity || assumption).
  rewrite He. reflexivity.
Qed.

(** The first branch reads each argument of the constructor from one
    place. *)
Lemma from_response_fields (e : Value) :
  carries_response e →
  from_response e =
  construct_ApiError (reported_code e) (reported_message e)
    (read (read e "response") "status") (envelope e "details").
Proof.
  intros [Ha Hr]. unfold from_response, reported_code, reported_message, envelope.
  rewrite (get_axios e "response" Ha). simpl.
  rewrite (get_truthy _ "data" Hr). simpl.
  rewrite (get_truthy _ "status" Hr).
  rewrite (get_axios e "message" Ha).
  set (d := read (read e "response") "data").
  rewrite (get_opt_read d "error"). rewrite !get_opt_read.
  unfold Js.or_else. simpl.
  destruct (truthy (read (read d "error") "code")); simpl;
    destruct (truthy (read (read d "error") "message")) eqn:Hm; simpl;
    rewrite ?Hm; simpl; try reflexivity;
    destruct (truthy (read e "message")) eqn:Ht; simpl; rewrite ?Ht; reflexivity.
Qed.

Lemma reported_message_truthy (e : Value) : truthy (reported_message e) = true.
Proof.
  unfold reported_message.
  destruct (truthy (envelope e "message")) eqn:H; [exact H |].
  destruct (truthy (read e "message")) eqn:H'; [exact H' | reflexivity].
Qed.

Lemma reported_code_truthy (e : Value) : truthy (reported_code e) = true.
Proof.
  unfold reported_code.
  destruct (truthy (envelope e "code")) eqn:H; [exact H | reflexivity].
Qed.

(** ** Error classification *)

Lemma classifies_exists (e : Value) : ∃ b, classifies e b.
Proof.
  destruct (carries_response_dec e) as [Hr | Hr].
  { exists ResponsePresent. constructor; assumption. }
  destruct (request_sent_dec e) as [Hq | Hq].
  { exists RequestSent. constructor; assumption. }
  destruct (instanceof_Error e) eqn:He.
  - exists LocalError. constructor; assumption.
  - exists Fallback. constructor; assumption.
Qed.

Lemma classifies_unique (e : Value) (b b' : Branch) :
  classifies e b → classifies e b' → b' = b.
Proof.
  intros H H'. destruct H; destruct H'; try reflexivity;
    try contradiction; congruence.
Qed.

Lemma classifies_outcome (e : Value) (b : Branch) :
  classifies e b → handleApiError e = branch_outcome b e.
Proof.
  intros H. destruct H as [Hr | Hr Hq | Hr Hq He | Hr Hq He]; simpl.
  - rewrite (handle_response e Hr). apply (from_response_fields e Hr).
  - apply (handle_request e Hr Hq).
  - apply (handle_local e Hr Hq He).
  - apply (handle_fallback e Hr Hq He).
Qed.

Lemma handleApiError_throws (e : Value) (t : Value) :
  handleApiError e = Throw t → t = conversion_error.
Proof.
  destruct (classifies_exists e) as [b Hb].
  rewrite (classifies_outcome e b Hb).
  destruct b; simpl; try discriminate; apply construct_throws.
Qed.

(** C1.  The classification is not total.  [new ApiError] converts the
    message to a string, and a message that cannot be converted makes the
    constructor, and with it [handleApiError], throw a TypeError instead of
    returning an error: in the response branch for a body whose
    [error.message] is such a value, in the local-error branch for an Error
    whose [message] is. *)
Theorem handleApiError_throws_on_unconvertible_message :
  carries_response unconvertible_message_error
  ∧ handleApiError unconvertible_message_error = Throw conversion_error
  ∧ instanceof_Error unconvertible_local_error = true
  ∧ handleApiError unconvertible_local_error = Throw conversion_error.
Proof.
  split; [split; reflexivity |]. repeat split.
Qed.

(** ** The response branch *)

(** C2, as amended.  For every caught failure carrying a received response
    whose message to report converts to a string, the result has the
    response status as it is; the envelope's code when that is truthy (a
    non-empty string), else [UNKNOWN_ERROR]; as message the string
    conversion of the envelope's message when that is truthy, else of the
    transport error's message when truthy, else ['Unknown error'] (a string
    is its own conversion); and the envelope's details untouched,
    [undefined] included. *)
Theorem response_error_fields (e : Value) (s : string) :
  carries_response e →
  ToString (reported_message e) = Normal s →
  ∃ a, handleApiError e = Normal a
    ∧ status a = read (read e "response") "status"
    ∧ code a = (if truthy (envelope e "code") then envelope e "code"
                else Str "UNKNOWN_ERROR")
    ∧ message a = s
    ∧ (∀ m, reported_message e = Str m → message a = m)
    ∧ details a = envelope e "details".
Proof.
  intros Hr Hs. eexists. split.
  - rewrite (handle_response e Hr), (from_response_fields e Hr).
    rewrite (construct_truthy _ _ _ _ (reported_message_truthy e)), Hs. reflexivity.
  - simpl. repeat split. intros m Hm. rewrite Hm in Hs. injection Hs as <-.
    reflexivity.
Qed.

Lemma response_error_fields_witness :
  carries_response not_found_error
  ∧ ToString (reported_message not_found_error) = Normal "Campaign not found"
  ∧ ∃ a, handleApiError not_found_error = Normal a
       ∧ status a = Num 404
       ∧ code a = Str "NOT_FOUND"
       ∧ message a = "Campaign not found"
       ∧ details a = Obj false [("campaignId", Str "abc")].
Proof.
  assert (Hr : carries_response not_found_error) by (split; reflexivity).
  split; [exact Hr |]. split; [reflexivity |].
  destruct (response_error_fields not_found_error "Campaign not found" Hr eq_refl)
    as (a & Ha & Hs & Hc & Hm & _ & Hd).
  exists a. repeat split; assumption.
Defined.

(** C2 as written fails twice: an envelope whose [code] is present but
    empty is reported as [UNKNOWN_ERROR], not as that code; and an
    envelope whose [message] is the number 42 is reported with the string
    ['42'], not with that message. *)
Lemma response_fields_if_present_fails :
  (carries_response empty_code_error
   ∧ envelope_own empty_code_error "code" = Some (Str "")
   ∧ ∃ a, handleApiError empty_code_error = Normal a
        ∧ code a = Str "UNKNOWN_ERROR"
        ∧ ¬ response_fields_if_present empty_code_error a)
  ∧ (carries_response numeric_message_error
     ∧ envelope_own numeric_message_error "message" = Some (Num 42)
     ∧ ∃ a, handleApiError numeric_message_error = Normal a
          ∧ message a = "42"
          ∧ ¬ response_fields_if_present numeric_message_error a).
Proof.
  split.
  - split; [split; reflexivity |]. split; [reflexivity |].
    eexists. split; [reflexivity |]. split; [reflexivity |].
    intros (_ & Hc & _). discriminate Hc.
  - split; [split; reflexivity |]. split; [reflexivity |].
    eexists. split; [reflexivity |]. split; [reflexivity |].
    intros (_ & _ & Hm & _). discriminate Hm.
Qed.

(** C10.  For a 404 whose body has no code and whose [error.message]
    cannot be converted to a string, no error is produced at all:
    [handleApiError] throws the TypeError of the conversion, where an error
    with code [UNKNOWN_ERROR] and status 404 was due. *)
Theorem no_error_for_unconvertible_envelope :
  carries_response unconvertible_404_error
  ∧ truthy (envelope unconvertible_404_error "code") = false
  ∧ read (read unconvertible_404_error "response") "status" = Num 404
  ∧ handleApiError unconvertible_404_error = Throw conversion_error.
Proof.
  split; [split; reflexivity |]. repeat split.
Qed.

(** ** The network branch *)

(** C5.  For every caught failure of a request that was sent and never
    answered, the result is [NETWORK_ERROR] with status 0, the fixed
    message and no details; the response hook rejects with that error. *)
Theorem network_error_fields {World} (e : Value) (w : World) :
  axios.isAxiosError e = true →
  truthy (read e "response") = false →
  truthy (read e "request") = true →
  handleApiError e =
    Normal (new_ApiError (Str "NETWORK_ERROR")
              "Network error - unable to reach server" (Num 0) Undefined)
  ∧ BaseClient.transformError e w =
    (Throw (ApiError_value
              (new_ApiError (Str "NETWORK_ERROR")
                 "Network error - unable to reach server" (Num 0) Undefined)),
     w).
Proof.
  intros Ha Hr Hq.
  assert (H : handleApiError e =
    Normal (new_ApiError (Str "NETWORK_ERROR")
              "Network error - unable to reach server" (Num 0) Undefined)).
  { apply handle_request.
    - intros [_ Hr']. congruence.
    - split; assumption. }
  split; [exact H |]. unfold BaseClient.transformError. rewrite H. reflexivity.
Qed.

Lemma network_error_fields_witness :
  axios.isAxiosError timeout_error = true
  ∧ truthy (read timeout_error "response") = false
  ∧ truthy (read timeout_error "request") = true
  ∧ handleApiError timeout_error =
    Normal (new_ApiError (Str "NETWORK_ERROR")
              "Network error - unable to reach server" (Num 0) Undefined).
Proof.
  split; [reflexivity |]. split; [reflexivity |]. split; [reflexivity |].
  exact (proj1 (network_error_fields (World := unit) timeout_error tt
                  eq_refl eq_refl eq_refl)).
Defined.

(** ** The request pipeline *)

(** A normalised rejection is the same at every result type. *)
Ltac by_normalised :=
  unfold normalised;
  match goal with
  | |- context [handleApiError ?e] => destruct (handleApiError e)
  end; reflexivity.

Section Pipeline.
Context {World : Type}.
Variable adapter : Request → Promise World AxiosResponse.

Lemma constructor_total (config : ClientConfig World) :
  ∃ this, BaseClient.constructor config = Normal this
        ∧ defaults (BaseClient.http this) =
          {| defaults_baseURL := baseURL config;
             defaults_timeout := number_or (timeout config) 10000;
             defaults_headers := {["Content-Type" := "application/json"]} |}.
Proof.
  unfold BaseClient.constructor. eexists. split; [reflexivity |].
  destruct (getToken config); reflexivity.
Qed.

(** Without a token getter the chain is [dispatch; response hooks]. *)
Lemma request_without_getter (config : ClientConfig World) (this : BaseClient.t World)
    (q : Request) (w : World) :
  getToken config = None →
  BaseClient.constructor config = Normal this →
  Axios.request adapter (BaseClient.http this) q w =
  match adapter q w with
  | (Normal response, w') => (Normal response, w')
  | (Throw e, w') => (normalised e, w')
  end.
Proof.
  intros Hg Hc. unfold BaseClient.constructor in Hc. rewrite Hg in Hc.
  injection Hc as <-. unfold Axios.request. simpl.
  unfold Axios.then_, mbind, promise_bind, mret, promise_ret. simpl.
  destruct (adapter q w) as [[response | e] w']; [reflexivity |].
  unfold BaseClient.transformError, normalised, reject.
  destruct (handleApiError e); reflexivity.
Qed.

(** With a token getter the chain is [auth hook; dispatch; response
    hooks]; a rejection of the hook skips the dispatch and is normalised
    like any other. *)
Lemma request_with_getter (config : ClientConfig World) (this : BaseClient.t World)
    (g : Promise World (option string)) (q : Request) (w : World) :
  getToken config = Some g →
  BaseClient.constructor config = Normal this →
  Axios.request adapter (BaseClient.http this) q w =
  match BaseClient.authInterceptor g q w with
  | (Normal q', w1) =>
      match adapter q' w1 with
      | (Normal response, w2) => (Normal response, w2)
      | (Throw e, w2) => (normalised e, w2)
      end
  | (Throw e, w1) => (normalised e, w1)
  end.
Proof.
  intros Hg Hc. unfold BaseClient.constructor in Hc. rewrite Hg in Hc.
  injection Hc as <-. unfold Axios.request. simpl.
  unfold Axios.then_ at 1 2. simpl.
  unfold mbind, promise_bind.
  destruct (BaseClient.authInterceptor g q w) as [[q' | e] w1].
  - destruct (adapter q' w1) as [[response | e] w2]; [reflexivity |].
    unfold BaseClient.transformError, normalised, reject.
    destruct (handleApiError e); reflexivity.
  - unfold BaseClient.transformError, normalised, reject.
    destruct (handleApiError e); reflexivity.
Qed.


(** A verb method is one pass of its merged request through the chain,
    followed by [response.data]. *)
Lemma verb_request (this : BaseClient.t World) (m : Method) (url : string)
    (body : Value) (opts : option AxiosRequestConfig) (w : World) :
  verb adapter this m url body opts w =
  match Axios.request adapter (BaseClient.http this)
          (Axios.mergeConfig (defaults (BaseClient.http this)) m url
             (body_sent m body) opts) w with
  | (Normal response, w') => (Normal (data response), w')
  | (Throw e, w') => (Throw e, w')
  end.
Proof.
  destruct m; reflexivity.
Qed.

Lemma verb_pipeline (config : ClientConfig World) (this : BaseClient.t World)
    (m : Method) (url : string) (body : Value)
    (opts : option AxiosRequestConfig) (w : World) :
  BaseClient.constructor config = Normal this →
  verb adapter this m url body opts w =
  match prepare config
          (Axios.mergeConfig (defaults (BaseClient.http this)) m url
             (body_sent m body) opts) w with
  | (Normal q, w1) => settled (adapter q w1)
  | (Throw e, w1) => (normalised e, w1)
  end.
Proof.
  intros Hc. rewrite verb_request. unfold prepare.
  destruct (getToken config) as [g |] eqn:Hg.
  - rewrite (request_with_getter config this g _ w Hg Hc).
    destruct (BaseClient.authInterceptor g _ w) as [[q | e] w1].
    + unfold settled. destruct (adapter q w1) as [[response | e] w2];
        [reflexivity | by_normalised].
    + by_normalised.
  - rewrite (request_without_getter config this _ w Hg Hc).
    unfold mret, promise_ret, settled.
    destruct (adapter _ w) as [[response | e] w2];
      [reflexivity | by_normalised].
Qed.

(** The auth hook asks the getter once and sets the header exactly when
    the token is truthy. *)
Lemma authInterceptor_run (g : Promise World (option string)) (q : Request) (w : World) :
  BaseClient.authInterceptor g q w =
  match g w with
  | (Normal token, w1) =>
      (Normal (if truthy (of_string token)
               then set_Authorization ("Bearer " ++ template token) q
               else q), w1)
  | (Throw e, w1) => (Throw e, w1)
  end.
Proof.
  unfold BaseClient.authInterceptor, mbind, promise_bind.
  destruct (g w) as [[token | e] w1]; [| reflexivity].
  destruct (truthy (of_string token)); reflexivity.
Qed.

End Pipeline.

(** ** Pass-through of the verb methods *)

(** C7.  For every verb, path, body and options: once the request hooks
    have completed, the request handed to the transport has that method,
    path, body and query unchanged, and when the transport answers, the verb
    method returns the response body as it is. *)
Theorem verbs_pass_through {World} (adapter : Request → Promise World AxiosResponse)
    (config : ClientConfig World) (this : BaseClient.t World)
    (m : Method) (url : string) (body : Value) (opts : option AxiosRequestConfig)
    (w w1 w2 : World) (q : Request) (response : AxiosResponse) :
  BaseClient.constructor config = Normal this →
  prepare config
    (Axios.mergeConfig (defaults (BaseClient.http this)) m url (body_sent m body) opts) w
    = (Normal q, w1) →
  adapter q w1 = (Normal response, w2) →
  req_method q = m
  ∧ req_url q = url
  ∧ req_data q = body_sent m body
  ∧ req_params q = match opts with Some c => params c | None => Undefined end
  ∧ verb adapter this m url body opts w = (Normal (data response), w2).
Proof.
  intros Hc Hp Ha.
  assert (Hq : req_method q = m ∧ req_url q = url ∧ req_data q = body_sent m body
               ∧ req_params q = match opts with Some c => params c | None => Undefined end).
  { revert Hp. unfold prepare. destruct (getToken config) as [g |].
    - rewrite authInterceptor_run. destruct (g w) as [[token | e] w'];
        [| discriminate]. intros [= <- _].
      destruct (truthy (of_string token)); simpl; auto.
    - intros [= <- _]. simpl. auto. }
  destruct Hq as (H1 & H2 & H3 & H4). repeat (split; [assumption |]).
  rewrite (verb_pipeline adapter config this m url body opts w Hc), Hp, Ha.
  reflexivity.
Qed.

Lemma verbs_pass_through_witness :
  verb (answering (Obj false [("id", Str "1")])) plain_client POST "/test"
       (Obj false [("name", Str "Test")]) None tt
  = (Normal (Obj false [("id", Str "1")]), tt).
Proof.
  exact (proj2 (proj2 (proj2 (proj2
    (verbs_pass_through (answering (Obj false [("id", Str "1")]))
       plain_config plain_client POST "/test" (Obj false [("name", Str "Test")])
       None tt tt tt _ _ eq_refl eq_refl eq_refl))))).
Defined.

(** ** What the transport is handed *)

Section Traces.
Context {W : Type}.
Variable adapter : Request → Promise W AxiosResponse.

Lemma trace_bind_ret {A B} (p : Promise (W * list Event) A) (v : B)
    (s : W * list Event) :
  trace_of ((p ≫= λ _, mret v) s) = trace_of (p s).
Proof.
  unfold mbind, promise_bind, trace_of. destruct (p s) as [[a | e] s']; reflexivity.
Qed.

(** Without a getter a verb method hands exactly one request to the
    transport: its merged configuration. *)
Lemma verb_trace_without_getter (config : ClientConfig (W * list Event))
    (this : BaseClient.t (W * list Event)) (m : Method) (url : string)
    (body : Value) (opts : option AxiosRequestConfig) (w : W) (t : list Event) :
  getToken config = None →
  BaseClient.constructor config = Normal this →
  trace_of (verb (watch_adapter adapter) this m url body opts (w, t)) =
  (t ++ [Sent (Axios.mergeConfig (defaults (BaseClient.http this)) m url
                 (body_sent m body) opts)])%list.
Proof.
  intros Hg Hc. rewrite (verb_pipeline _ config this m url body opts _ Hc).
  unfold prepare. rewrite Hg. unfold mret, promise_ret, settled, watch_adapter.
  destruct (adapter _ w) as [[response | e] w']; reflexivity.
Qed.

(** With a getter: one token request, then one request to the transport
    unless the getter rejected. *)
Lemma verb_trace_with_getter (config : ClientConfig (W * list Event))
    (g : Promise W (option string))
    (this : BaseClient.t (W * list Event)) (m : Method) (url : string)
    (body : Value) (opts : option AxiosRequestConfig) (w : W) (t : list Event) :
  getToken config = Some (watch_getter g) →
  BaseClient.constructor config = Normal this →
  trace_of (verb (watch_adapter adapter) this m url body opts (w, t)) =
  match g w with
  | (Normal token, _) =>
      let q := Axios.mergeConfig (defaults (BaseClient.http this)) m url
                 (body_sent m body) opts in
      (t ++ [TokenRequested;
             Sent (if truthy (of_string token)
                   then set_Authorization ("Bearer " ++ template token) q
                   else q)])%list
  | (Throw _, _) => (t ++ [TokenRequested])%list
  end.
Proof.
  intros Hg Hc. rewrite (verb_pipeline _ config this m url body opts _ Hc).
  unfold prepare. rewrite Hg, authInterceptor_run. unfold watch_getter.
  destruct (g w) as [[token | e] w1].
  - unfold settled, watch_adapter.
    destruct (adapter _ w1) as [[response | e] w2]; unfold trace_of; simpl;
      rewrite <- app_assoc; reflexivity.
  - reflexivity.
Qed.

Lemma merged_without_Authorization (d : CreateAxiosDefaults) (m : Method)
    (url : string) (body : Value) (opts : option AxiosRequestConfig) :
  defaults_headers d !! "Authorization" = None →
  (∀ c, opts = Some c → headers c !! "Authorization" = None) →
  req_headers (Axios.mergeConfig d m url body opts) !! "Authorization" = None.
Proof.
  intros Hd Ho. destruct opts as [c |]; simpl; [| exact Hd].
  rewrite lookup_union, Hd, (Ho c eq_refl). reflexivity.
Qed.

Lemma merged_Authorization (d : CreateAxiosDefaults) (m : Method)
    (url : string) (body : Value) (opts : option AxiosRequestConfig) :
  defaults_headers d !! "Authorization" = None →
  req_headers (Axios.mergeConfig d m url body opts) !! "Authorization"
  = match opts with
    | Some c => headers c !! "Authorization"
    | None => None
    end.
Proof.
  intros Hd. destruct opts as [c |]; simpl; [| exact Hd].
  rewrite lookup_union, Hd. destruct (headers c !! "Authorization"); reflexivity.
Qed.

End Traces.

(** ** Authentication *)

Lemma new_ClipdeckClient_parts {World} (config : ClientConfig World)
    (client : ClipdeckClient World) :
  new_ClipdeckClient config = Normal client →
  BaseClient.constructor config = Normal (campaigns client)
  ∧ BaseClient.constructor config = Normal (clips client)
  ∧ BaseClient.constructor config = Normal (users client)
  ∧ BaseClient.constructor config = Normal (notifications client)
  ∧ BaseClient.constructor config = Normal (balance client)
  ∧ BaseClient.constructor config = Normal (studios client)
  ∧ BaseClient.constructor config = Normal (disputes client).
Proof.
  unfold new_ClipdeckClient.
  destruct (constructor_total config) as (this & Hc & _). rewrite Hc. simpl.
  intros [= <-]. simpl. repeat split; reflexivity.
Qed.

Section NoGetter.
Context {W : Type}.
Variable adapter : Request → Promise W AxiosResponse.
Variable config : ClientConfig (W * list Event).
Hypothesis no_getter : getToken config = None.

Lemma sent_without_Authorization (this : BaseClient.t (W * list Event))
    (m : Method) (url : string) (body : Value)
    (opts : option AxiosRequestConfig) (w : W) (t : list Event) :
  BaseClient.constructor config = Normal this →
  (∀ c, opts = Some c → headers c !! "Authorization" = None) →
  ∃ q, trace_of (verb (watch_adapter adapter) this m url body opts (w, t))
       = (t ++ [Sent q])%list
     ∧ req_headers q !! "Authorization" = None.
Proof.
  intros Hc Ho. eexists. split.
  - apply (verb_trace_without_getter adapter config this); assumption.
  - apply merged_without_Authorization; [| exact Ho].
    destruct (constructor_total config) as (this' & Hc' & Hd).
    rewrite Hc in Hc'. injection Hc' as <-. rewrite Hd. simpl.
    apply lookup_singleton_ne. discriminate.
Qed.

Lemma with_params_no_headers (p : Value) (c : AxiosRequestConfig) :
  with_params p = Some c → headers c !! "Authorization" = None.
Proof.
  intros [= <-]. apply lookup_empty.
Qed.

Lemma no_options_no_headers (c : AxiosRequestConfig) :
  @None AxiosRequestConfig = Some c → headers c !! "Authorization" = None.
Proof.
  discriminate.
Qed.

(** Every resource-client method is one verb call whose options carry at
    most [params]. *)
Ltac one_verb_call Hc :=
  first
    [ apply (sent_without_Authorization _ GET _ Undefined _ _ _ Hc)
    | apply (sent_without_Authorization _ DELETE _ Undefined _ _ _ Hc)
    | apply (sent_without_Authorization _ POST _ _ _ _ _ Hc)
    | apply (sent_without_Authorization _ PATCH _ _ _ _ _ Hc) ];
  first [ apply with_params_no_headers | apply no_options_no_headers ].

Lemma performed_without_Authorization (client : ClipdeckClient (W * list Event))
    (op : Operation) (w : W) (t : list Event) :
  new_ClipdeckClient config = Normal client →
  ∃ q, trace_of (perform (watch_adapter adapter) client op (w, t))
       = (t ++ [Sent q])%list
     ∧ req_headers q !! "Authorization" = None.
Proof.
  intros Hn.
  destruct (new_ClipdeckClient_parts config client Hn)
    as (H1 & H2 & H3 & H4 & H5 & H6 & H7).
  destruct op; unfold perform; autounfold with clients;
    rewrite ?trace_bind_ret;
    try (destruct (truthy (of_string id)));
    first [ one_verb_call H1 | one_verb_call H2 | one_verb_call H3
          | one_verb_call H4 | one_verb_call H5 | one_verb_call H6
          | one_verb_call H7 ].
Qed.

End NoGetter.

(** C6, as amended.  For every configuration without a token getter the
    pipeline adds no [Authorization] header: the one request a verb method
    hands to the transport carries the header exactly when the caller's own
    options do, and the request of every method of every resource client
    carries none. *)
Theorem no_getter_no_Authorization {W} (adapter : Request → Promise W AxiosResponse)
    (config : ClientConfig (W * list Event)) :
  getToken config = None →
  (∀ this m url body opts w t,
     BaseClient.constructor config = Normal this →
     ∃ q, trace_of (verb (watch_adapter adapter) this m url body opts (w, t))
          = (t ++ [Sent q])%list
        ∧ req_headers q !! "Authorization"
          = match opts with
            | Some c => headers c !! "Authorization"
            | None => None
            end)
  ∧ (∀ client op w t,
     new_ClipdeckClient config = Normal client →
     ∃ q, trace_of (perform (watch_adapter adapter) client op (w, t))
          = (t ++ [Sent q])%list
        ∧ req_headers q !! "Authorization" = None).
Proof.
  intros Hg. split.
  - intros this m url body opts w t Hc. eexists. split.
    + apply (verb_trace_without_getter adapter config this); assumption.
    + apply merged_Authorization.
      destruct (constructor_total config) as (this' & Hc' & Hd).
      rewrite Hc in Hc'. injection Hc' as <-. rewrite Hd. simpl.
      apply lookup_singleton_ne. discriminate.
  - intros client op w t. apply performed_without_Authorization, Hg.
Qed.

Lemma no_getter_no_Authorization_witness :
  getToken (@plain_config (unit * list Event)) = None
  ∧ ∃ client, new_ClipdeckClient (@plain_config (unit * list Event)) = Normal client
    ∧ ∃ q, trace_of (perform (watch_adapter (answering Undefined)) client
                       (campaigns_list (Obj false [("page", Num 1)])) (tt, []))
           = [Sent q]
         ∧ req_headers q !! "Authorization" = None.
Proof.
  split; [reflexivity |]. eexists. split; [reflexivity |].
  apply (proj2 (no_getter_no_Authorization (answering Undefined) plain_config eq_refl)).
  reflexivity.
Defined.

(** C6 as written fails for the verb methods: options that carry the
    header themselves reach the transport with it. *)
Lemma never_carries_Authorization_fails :
  ¬ never_carries_Authorization (answering Undefined) plain_config
      GET "/users/me" Undefined (Some own_credentials) tt.
Proof.
  intros H. specialize (H _ eq_refl).
  rewrite (verb_trace_without_getter (answering Undefined) plain_config _
             GET "/users/me" Undefined (Some own_credentials) tt [] eq_refl eq_refl) in H.
  specialize (H _ (or_introl eq_refl)).
  rewrite merged_Authorization in H.
  - unfold own_credentials in H. simpl in H. rewrite lookup_singleton_eq in H.
    discriminate H.
  - apply lookup_singleton_ne. discriminate.
Qed.

Section Getter.
Context {W : Type}.
Variable adapter : Request → Promise W AxiosResponse.
Variable g : Promise W (option string).
Variable config : ClientConfig (W * list Event).
Hypothesis watched : getToken config = Some (watch_getter g).

Lemma token_requests_app (t u : list Event) :
  token_requests (t ++ u) = token_requests t + token_requests u.
Proof.
  unfold token_requests. rewrite List.filter_app, length_app. reflexivity.
Qed.

Lemma getter_asked_once (this : BaseClient.t (W * list Event))
    (m : Method) (url : string) (body : Value)
    (opts : option AxiosRequestConfig) (w : W) (t : list Event) :
  BaseClient.constructor config = Normal this →
  token_requests (trace_of (verb (watch_adapter adapter) this m url body opts (w, t)))
  = token_requests t + 1.
Proof.
  intros Hc. rewrite (verb_trace_with_getter adapter config g this _ _ _ _ _ _ watched Hc).
  destruct (g w) as [[token | e] w1]; rewrite token_requests_app; reflexivity.
Qed.

Lemma truthy_token (token : string) :
  token ≠ "" → truthy (of_string (Some token)) = true.
Proof.
  intros Hne. simpl. destruct (String.eqb_spec token ""); [contradiction | reflexivity].
Qed.

End Getter.

(** C3, as amended.  With a token getter configured, for every verb
    call: if the getter yields a non-empty string, the request handed to
    the transport has [Authorization] equal to ['Bearer '] followed by it;
    if it yields [null] or the empty string, the request is handed over as
    merged, with no header set by the hook; and whatever the getter yields,
    it is asked exactly once for the call, before the request is sent. *)
Theorem getter_result_decides_header {W} (adapter : Request → Promise W AxiosResponse)
    (g : Promise W (option string)) (config : ClientConfig (W * list Event))
    (this : BaseClient.t (W * list Event)) (m : Method) (url : string)
    (body : Value) (opts : option AxiosRequestConfig) (w : W) (t : list Event) :
  getToken config = Some (watch_getter g) →
  BaseClient.constructor config = Normal this →
  let merged := Axios.mergeConfig (defaults (BaseClient.http this)) m url
                  (body_sent m body) opts in
  let run := verb (watch_adapter adapter) this m url body opts (w, t) in
  (∀ token w1, g w = (Normal (Some token), w1) → token ≠ "" →
     ∃ q, trace_of run = (t ++ [TokenRequested; Sent q])%list
        ∧ req_headers q !! "Authorization" = Some ("Bearer " ++ token)
        ∧ q = set_Authorization ("Bearer " ++ token) merged)
  ∧ (∀ token w1, g w = (Normal token, w1) → token = None ∨ token = Some "" →
     trace_of run = (t ++ [TokenRequested; Sent merged])%list)
  ∧ token_requests (trace_of run) = token_requests t + 1.
Proof.
  intros Hg Hc merged run. subst run.
  split; [| split].
  - intros token w1 Hw Hne. eexists. split; [| split; [| reflexivity]].
    + rewrite (verb_trace_with_getter adapter config g this _ _ _ _ _ _ Hg Hc), Hw.
      rewrite (truthy_token token Hne). reflexivity.
    + simpl. apply lookup_insert_eq.
  - intros token w1 Hw Hfalsy.
    rewrite (verb_trace_with_getter adapter config g this _ _ _ _ _ _ Hg Hc), Hw.
    destruct Hfalsy as [-> | ->]; reflexivity.
  - apply (getter_asked_once adapter g config Hg this); exact Hc.
Qed.

Lemma getter_result_decides_header_witness :
  ∃ this q,
    BaseClient.constructor (token_config (watch_getter (@resolves unit (Some "my-token"))))
      = Normal this
    ∧ trace_of (verb (watch_adapter (answering Undefined)) this GET "/users/me"
                  Undefined None (tt, []))
      = [TokenRequested; Sent q]
    ∧ req_headers q !! "Authorization" = Some "Bearer my-token".
Proof.
  eexists.
  destruct (getter_result_decides_header (answering Undefined)
              (resolves (Some "my-token"))
              (token_config (watch_getter (resolves (Some "my-token"))))
              _ GET "/users/me" Undefined None tt [] eq_refl eq_refl)
    as (Hsome & _ & _).
  destruct (Hsome "my-token" tt eq_refl ltac:(discriminate)) as (q & Ht & Hh & _).
  exists q. split; [reflexivity |]. split; assumption.
Defined.

(** C3 as written fails: the empty string is a non-null token, and the
    request then goes out without the header. *)
Lemma bearer_for_every_string_fails :
  ¬ bearer_for_every_string (answering Undefined) (resolves (Some ""))
      GET "/users/me" Undefined None tt.
Proof.
  intros H. destruct (H _ "" tt eq_refl eq_refl) as (q & Hin & Hh).
  rewrite (verb_trace_with_getter (answering Undefined)
             (token_config (watch_getter (resolves (Some "")))) (resolves (Some ""))
             _ GET "/users/me" Undefined None tt [] eq_refl eq_refl) in Hin.
  destruct Hin as [Heq | [Heq | []]]; [discriminate |].
  injection Heq as <-.
  rewrite merged_without_Authorization in Hh; [discriminate | | discriminate].
  apply lookup_singleton_ne. discriminate.
Qed.

(** ** Routing of markAsRead *)

Lemma non_empty_truthy (id : string) :
  id ≠ "" → truthy (of_string (Some id)) = true.
Proof.
  intros Hne. simpl. destruct (String.eqb_spec id ""); [contradiction | reflexivity].
Qed.

(** C8, as amended.  [markAsRead(id)] with a non-empty id is
    PATCH [/notifications/{id}/read]; [markAsRead()] without an id is
    PATCH [/notifications/read]; in both cases with no body and no
    options, and for a client without a token getter that one request is
    what the transport is handed. *)
Theorem markAsRead_routes {W} (adapter : Request → Promise W AxiosResponse)
    (config : ClientConfig (W * list Event))
    (this : BaseClient.t (W * list Event)) (w : W) (t : list Event) :
  BaseClient.constructor config = Normal this →
  (∀ id, id ≠ "" →
     NotificationClient.markAsRead (watch_adapter adapter) this (Some id)
     = BaseClient.patch (watch_adapter adapter) this
         ("/notifications/" ++ id ++ "/read") Undefined None
     ∧ (getToken config = None →
        ∃ q, trace_of (NotificationClient.markAsRead (watch_adapter adapter) this
                         (Some id) (w, t)) = (t ++ [Sent q])%list
           ∧ req_method q = PATCH
           ∧ req_url q = "/notifications/" ++ id ++ "/read"
           ∧ req_data q = Undefined))
  ∧ (NotificationClient.markAsRead (watch_adapter adapter) this None
     = BaseClient.patch (watch_adapter adapter) this "/notifications/read" Undefined None
     ∧ (getToken config = None →
        ∃ q, trace_of (NotificationClient.markAsRead (watch_adapter adapter) this
                         None (w, t)) = (t ++ [Sent q])%list
           ∧ req_method q = PATCH
           ∧ req_url q = "/notifications/read"
           ∧ req_data q = Undefined)).
Proof.
  intros Hc. split.
  - intros id Hne.
    assert (Heq : NotificationClient.markAsRead (watch_adapter adapter) this (Some id)
                  = BaseClient.patch (watch_adapter adapter) this
                      ("/notifications/" ++ id ++ "/read") Undefined None).
    { unfold NotificationClient.markAsRead. rewrite (non_empty_truthy id Hne).
      reflexivity. }
    split; [exact Heq |]. intros Hg. rewrite Heq. eexists. split.
    + apply (verb_trace_without_getter adapter config this PATCH _ Undefined None w t Hg Hc).
    + repeat split.
  - split; [reflexivity |]. intros Hg. eexists. split.
    + apply (verb_trace_without_getter adapter config this PATCH _ Undefined None w t Hg Hc).
    + repeat split.
Qed.

Lemma markAsRead_routes_witness :
  ∃ this q,
    BaseClient.constructor (@plain_config (unit * list Event)) = Normal this
    ∧ trace_of (NotificationClient.markAsRead (watch_adapter (answering Undefined)) this
                  (Some "notif-1") (tt, [])) = [Sent q]
    ∧ req_method q = PATCH
    ∧ req_url q = "/notifications/notif-1/read".
Proof.
  eexists.
  destruct (markAsRead_routes (answering Undefined) plain_config _ tt [] eq_refl)
    as (Hone & _).
  destruct (Hone "notif-1" ltac:(discriminate)) as (_ & Hsent).
  destruct (Hsent eq_refl) as (q & Ht & Hm & Hu & _).
  exists q. split; [reflexivity |]. repeat split; assumption.
Defined.

(** C8 as written fails: the empty string is an id, and [markAsRead('')]
    goes to [/notifications/read], which marks every notification. *)
Lemma marks_one_for_every_id_fails :
  ¬ marks_one_for_every_id (answering Undefined) "" tt.
Proof.
  intros H. destruct (H _ eq_refl) as (q & Ht & _ & Hu).
  injection Ht as <-. discriminate Hu.
Qed.

(** ** Construction *)

Lemma truthy_Num (n : Number) :
  truthy (Num n) = true ↔ n ≠ NaN ∧ n ≠ 0%Z.
Proof.
  destruct n as [| n safe]; simpl.
  - split; [discriminate | intros [H _]; contradiction].
  - destruct (Z.eqb_spec n 0) as [-> | Hn]; simpl.
    + split; [discriminate |]. intros [_ H]. exfalso. apply H.
      destruct safe. reflexivity.
    + split; [| reflexivity]. intros _. split; [discriminate |].
      intros H. injection H as H. contradiction.
Qed.

(** C9, as amended.  The timeout the transport is created with, and that
    every request carries, is 10000 when the configuration omits it, the
    configured value when that is neither 0 nor [NaN], and 10000 again
    when it is one of these two. *)
Theorem effective_timeout {World} (config : ClientConfig World)
    (this : BaseClient.t World) :
  BaseClient.constructor config = Normal this →
  (timeout config = None →
     defaults_timeout (defaults (BaseClient.http this)) = 10000%Z)
  ∧ (∀ n, timeout config = Some n → n ≠ NaN → n ≠ 0%Z →
     defaults_timeout (defaults (BaseClient.http this)) = n)
  ∧ (∀ n, timeout config = Some n → n = NaN ∨ n = 0%Z →
     defaults_timeout (defaults (BaseClient.http this)) = 10000%Z)
  ∧ (∀ m url body opts,
     req_timeout (Axios.mergeConfig (defaults (BaseClient.http this)) m url body opts)
     = defaults_timeout (defaults (BaseClient.http this))).
Proof.
  intros Hc. destruct (constructor_total config) as (this' & Hc' & Hd).
  rewrite Hc in Hc'. injection Hc' as <-. rewrite Hd. simpl.
  split; [| split; [| split]].
  - intros ->. reflexivity.
  - intros n -> Hnan Hzero. unfold number_or.
    rewrite (proj2 (truthy_Num n) (conj Hnan Hzero)). reflexivity.
  - intros n -> [-> | ->]; reflexivity.
  - reflexivity.
Qed.

Lemma effective_timeout_witness :
  defaults_timeout (defaults (BaseClient.http (@plain_client unit))) = 10000%Z
  ∧ ∃ this, BaseClient.constructor (@custom_timeout_config unit) = Normal this
          ∧ defaults_timeout (defaults (BaseClient.http this)) = 30000%Z.
Proof.
  split.
  - exact (proj1 (effective_timeout plain_config plain_client eq_refl) eq_refl).
  - eexists. split; [reflexivity |].
    exact (proj1 (proj2 (effective_timeout custom_timeout_config _ eq_refl))
             30000%Z eq_refl ltac:(discriminate) ltac:(discriminate)).
Defined.

(** C9 as written fails: a configured timeout of 0 is replaced by the
    default, and so is a configured [NaN]. *)
Lemma timeout_is_the_configured_one_fails :
  ¬ timeout_is_the_configured_one (@zero_timeout_config unit)
  ∧ ¬ timeout_is_the_configured_one (@nan_timeout_config unit).
Proof.
  split; intros H.
  - specialize (H _ 0%Z eq_refl eq_refl). discriminate H.
  - specialize (H _ NaN eq_refl eq_refl). discriminate H.
Qed.

(** C4.  There is no fail-fast in the constructor.  For the configuration
    of a caller whose base address is missing at run time, the constructor
    returns a client, its transport is created without a base address, and
    a request made through it is handed to the transport with none: no
    configuration error is raised at any point. *)
Theorem constructor_accepts_missing_base_address :
  baseURL (@no_base_config (unit * list Event)) = None
  ∧ ¬ fails_without_base_address (@no_base_config (unit * list Event))
  ∧ ∃ this,
      BaseClient.constructor (@no_base_config (unit * list Event)) = Normal this
      ∧ defaults_baseURL (defaults (BaseClient.http this)) = None
      ∧ ∃ q, verb (watch_adapter (answering (Str "ok"))) this GET "/users/me"
               Undefined None (tt, [])
             = (Normal (Str "ok"), (tt, [Sent q]))
           ∧ req_baseURL q = None.
Proof.
  split; [reflexivity |]. split.
  - intros H. destruct (H eq_refl) as (reason & Hr). discriminate Hr.
  - eexists. split; [reflexivity |]. split; [reflexivity |].
    eexists. split; reflexivity.
Qed.

(** Tokens are not cached: two calls in a row ask the getter twice and
    each request carries the token of its own call. *)
Lemma tokens_are_not_cached :
  ∃ this,
    BaseClient.constructor (token_config (watch_getter next_token)) = Normal this
    ∧ let two_calls :=
        _ ← verb (watch_adapter (answering Undefined)) this GET "/users/me" Undefined None;
        verb (watch_adapter (answering Undefined)) this GET "/users/me" Undefined None in
      let t := trace_of (two_calls (["first"; "second"], [])) in
      token_requests t = 2
      ∧ authorizations t = [Some "Bearer first"; Some "Bearer second"].
Proof.
  eexists. split; [reflexivity |]. vm_compute. split; reflexivity.
Qed.

(** ** The cases of the test-suite *)

Example test_fallback_values :
  handleApiError
    (Obj false [("isAxiosError", Bool true);
                ("response", Obj false [("status", Num 500); ("data", Obj false [])]);
                ("message", Str "Request failed");
                ("request", Obj false [])])
  = Normal (new_ApiError (Str "UNKNOWN_ERROR") "Request failed" (Num 500) Undefined).
Proof. reflexivity. Qed.

Example test_network_error :
  handleApiError
    (Obj false [("isAxiosError", Bool true);
                ("request", Obj false []);
                ("message", Str "Network Error")])
  = Normal (new_ApiError (Str "NETWORK_ERROR")
              "Network error - unable to reach server" (Num 0) Undefined).
Proof. reflexivity. Qed.

Example test_client_error :
  handleApiError (Obj true [("message", Str "Something went wrong")])
  = Normal (new_ApiError (Str "CLIENT_ERROR") "Something went wrong" (Num 0) Undefined).
Proof. reflexivity. Qed.

Example test_unknown_error_string :
  handleApiError (Str "string error")
  = Normal (new_ApiError (Str "UNKNOWN_ERROR") "An unknown error occurred"
              (Num 0) Undefined).
Proof. reflexivity. Qed.

Example test_unknown_error_null :
  handleApiError Null
  = Normal (new_ApiError (Str "UNKNOWN_ERROR") "An unknown error occurred"
              (Num 0) Undefined).
Proof. reflexivity. Qed.

Example test_constructor_defaults :
  BaseClient.constructor (@plain_config unit) = Normal plain_client.
Proof. reflexivity. Qed.

Example test_interceptor_adds_bearer :
  ∃ q, BaseClient.authInterceptor (@resolves unit (Some "my-token"))
         (Axios.mergeConfig (defaults (BaseClient.http (@plain_client unit)))
            GET "/test" Undefined None) tt = (Normal q, tt)
     ∧ req_headers q !! "Authorization" = Some "Bearer my-token".
Proof.
  eexists. split; [reflexivity |]. apply lookup_insert_eq.
Qed.

Example test_interceptor_skips_null :
  BaseClient.authInterceptor (@resolves unit None)
    (Axios.mergeConfig (defaults (BaseClient.http (@plain_client unit)))
       GET "/test" Undefined None) tt
  = (Normal (Axios.mergeConfig (defaults (BaseClient.http (@plain_client unit)))
               GET "/test" Undefined None), tt).
Proof. reflexivity. Qed.

(** ** What the constructor stores as the message *)

Example message_number_is_printed :
  handleApiError numeric_message_error
  = Normal (new_ApiError (Str "VALIDATION_ERROR") "42" (Num 422) Undefined).
Proof. reflexivity. Qed.

Example message_empty_array_is_empty :
  handleApiError
    (Obj false [("isAxiosError", Bool true);
                ("response", Obj false
                   [("status", Num 400);
                    ("data", Obj false [("error", Obj false [("message", Arr [])])])]);
                ("message", Str "Request failed with status code 400")])
  = Normal (new_ApiError (Str "UNKNOWN_ERROR") "" (Num 400) Undefined).
Proof. reflexivity. Qed.

Example message_array_is_joined :
  handleApiError
    (Obj false [("isAxiosError", Bool true);
                ("response", Obj false
                   [("status", Num 400);
                    ("data", Obj false
                       [("error", Obj false
                          [("message", Arr [Str "too short"; Null; Num 7])])])]);
                ("message", Str "Request failed with status code 400")])
  = Normal (new_ApiError (Str "UNKNOWN_ERROR") "too short,,7" (Num 400) Undefined).
Proof. reflexivity. Qed.

Example message_object_is_tagged :
  handleApiError
    (Obj false [("isAxiosError", Bool true);
                ("response", Obj false
                   [("status", Num 400);
                    ("data", Obj false
                       [("error", Obj false
                          [("message", Obj false [("field", Str "title")])])])]);
                ("message", Str "Request failed with status code 400")])
  = Normal (new_ApiError (Str "UNKNOWN_ERROR") "[object Object]" (Num 400) Undefined).
Proof. reflexivity. Qed.

Example message_undefined_is_empty :
  handleApiError (Obj true [("message", Undefined)])
  = Normal (new_ApiError (Str "CLIENT_ERROR") "" (Num 0) Undefined).
Proof. reflexivity. Qed.

Example message_of_local_error_is_printed :
  handleApiError (Obj true [("message", Num 7)])
  = Normal (new_ApiError (Str "CLIENT_ERROR") "7" (Num 0) Undefined).
Proof. reflexivity. Qed.

Example message_unconvertible_throws :
  handleApiError unconvertible_message_error = Throw conversion_error.
Proof. reflexivity. Qed.

(** * Further properties of the code *)

(** ** The precedence of the branches *)

(** X15.  Every caught value satisfies the guard of exactly one of the
    four branches, taken in the order of the source, and [handleApiError]
    does on it what that branch does: it returns the branch's error, or,
    when the branch's message cannot be converted to a string, throws as
    the branch's constructor call throws.  A value carrying both a response
    and a request is in the first branch. *)
Theorem handleApiError_branch_precedence (e : Value) :
  (∃ b, classifies e b
      ∧ (∀ b', classifies e b' → b' = b)
      ∧ handleApiError e = branch_outcome b e)
  ∧ (carries_response e → request_sent e →
     classifies e ResponsePresent ∧ handleApiError e = from_response e).
Proof.
  split.
  - destruct (classifies_exists e) as [b Hb]. exists b.
    split; [exact Hb |]. split.
    + intros b'. apply classifies_unique, Hb.
    + apply classifies_outcome, Hb.
  - intros Hr _. split; [constructor; exact Hr | apply handle_response, Hr].
Qed.

Lemma handleApiError_branch_precedence_witness :
  carries_response not_found_error
  ∧ request_sent not_found_error
  ∧ classifies not_found_error ResponsePresent.
Proof.
  assert (Hr : carries_response not_found_error) by (split; reflexivity).
  assert (Hq : request_sent not_found_error) by (split; reflexivity).
  split; [exact Hr |]. split; [exact Hq |].
  exact (proj1 (proj2 (handleApiError_branch_precedence not_found_error) Hr Hq)).
Defined.

(** ** Codes are never derived from the status *)



(** ** Normalisation outside the response branch *)



(** X2.  The code of a normalised error is never empty or absent, whatever
    was caught; and when a response was received and the message reported
    is a string (the envelope's, the transport error's or ['Unknown
    error']), the error's message is that string and is not empty. *)
Theorem code_is_never_empty (e : Value) (a : ApiError) :
  handleApiError e = Normal a →
  truthy (code a) = true
  ∧ (carries_response e → ∀ s, reported_message e = Str s →
     message a = s ∧ s ≠ "").
Proof.
  intros Ha. destruct (carries_response_dec e) as [Hr | Hr].
  - rewrite (handle_response e Hr), (from_response_fields e Hr) in Ha.
    destruct (construct_fields _ _ _ _ _ Ha) as (Hc & _ & _ & Hm).
    split; [rewrite Hc; apply reported_code_truthy |].
    intros _ s Hs. pose proof (reported_message_truthy e) as Ht.
    rewrite Hs in Hm, Ht. simpl in Hm. injection Hm as <-.
    split; [reflexivity |]. intros ->. discriminate Ht.
  - split; [| intros Hr'; contradiction].
    destruct (request_sent_dec e) as [Hq | Hq].
    { rewrite (handle_request e Hr Hq) in Ha. injection Ha as <-. reflexivity. }
    destruct (instanceof_Error e) eqn:He.
    + rewrite (handle_local e Hr Hq He) in Ha.
      destruct (construct_fields _ _ _ _ _ Ha) as (-> & _). reflexivity.
    + rewrite (handle_fallback e Hr Hq He) in Ha. injection Ha as <-. reflexivity.
Qed.

Lemma code_is_never_empty_witness :
  ∃ a, handleApiError empty_code_error = Normal a
     ∧ truthy (code a) = true
     ∧ message a ≠ "".
Proof.
  eexists. split; [reflexivity |].
  destruct (code_is_never_empty empty_code_error _ eq_refl) as (Hc & Hm).
  split; [exact Hc |].
  destruct (Hm ltac:(split; reflexivity) _ eq_refl) as (Heq & Hne).
  rewrite Heq. exact Hne.
Defined.

(** ** Resource-client methods as verb calls *)

Lemma normalised_cases {A} (e : Value) :
  (∃ a, handleApiError e = Normal a ∧ @normalised A e = Throw (ApiError_value a))
  ∨ (handleApiError e = Throw conversion_error
     ∧ @normalised A e = Throw conversion_error).
Proof.
  unfold normalised. destruct (handleApiError e) as [a | t] eqn:He.
  - left. eauto.
  - right. rewrite (handleApiError_throws e t He). split; reflexivity.
Qed.

Lemma clients_constructed {World} (config : ClientConfig World)
    (client : ClipdeckClient World) (this : BaseClient.t World) :
  new_ClipdeckClient config = Normal client →
  In this (clients_of client) →
  BaseClient.constructor config = Normal this.
Proof.
  intros Hn Hin.
  destruct (new_ClipdeckClient_parts config client Hn)
    as (H1 & H2 & H3 & H4 & H5 & H6 & H7).
  unfold clients_of in Hin. simpl in Hin.
  repeat (destruct Hin as [<- | Hin]; [assumption |]). contradiction.
Qed.

Ltac as_verb_call :=
  match goal with
  | |- context [Axios.get _ (BaseClient.http ?this) ?url ?opts] =>
      exists this, GET, url, Undefined, opts
  | |- context [Axios.delete _ (BaseClient.http ?this) ?url ?opts] =>
      exists this, DELETE, url, Undefined, opts
  | |- context [Axios.post _ (BaseClient.http ?this) ?url ?body ?opts] =>
      exists this, POST, url, body, opts
  | |- context [Axios.patch _ (BaseClient.http ?this) ?url ?body ?opts] =>
      exists this, PATCH, url, body, opts
  end;
  first [ exists false; refine (conj _ (conj _ (conj _ (conj _ eq_refl))))
        | exists true; refine (conj _ (conj _ (conj _ (conj _ eq_refl)))) ];
  [ unfold clients_of; simpl; tauto
  | first [ left; reflexivity | right; eexists; reflexivity ]
  | discriminate
  | reflexivity ].

(** Every method of every resource client is one verb call on one of the
    seven clients, never a PUT, to a path under the family's prefix, with
    no options or with [{ params }] only, whose result is returned or, for
    the [remove] methods, discarded. *)
Lemma perform_is_one_verb {World} (adapter : Request → Promise World AxiosResponse)
    (client : ClipdeckClient World) (op : Operation) :
  ∃ this m url body opts discard,
    In this (clients_of client)
    ∧ (opts = None ∨ ∃ p, opts = with_params p)
    ∧ m ≠ PUT
    ∧ String.prefix (family_prefix op) url = true
    ∧ perform adapter client op = finish discard (verb adapter this m url body opts).
Proof.
  destruct op; unfold perform; autounfold with clients;
    try (destruct (truthy (of_string id))); as_verb_call.
Qed.

(** ** Rejections *)

(** What the response hook throws for a caught [e]. *)
Lemma verb_rejects_normalised {World} (adapter : Request → Promise World AxiosResponse)
    (config : ClientConfig World) (this : BaseClient.t World)
    (m : Method) (url : string) (body : Value) (opts : option AxiosRequestConfig)
    (w w' : World) (r : Value) :
  BaseClient.constructor config = Normal this →
  verb adapter this m url body opts w = (Throw r, w') →
  ∃ e, (∃ a, handleApiError e = Normal a ∧ r = ApiError_value a)
     ∨ (handleApiError e = Throw r ∧ r = conversion_error).
Proof.
  intros Hc. rewrite (verb_pipeline adapter config this m url body opts w Hc).
  destruct (prepare config _ w) as [[q | e] w1].
  - unfold settled. destruct (adapter q w1) as [[response | e] w2]; [discriminate |].
    destruct (normalised_cases (A := Value) e) as [(a & Ha & Hn) | (Ha & Hn)];
      rewrite Hn; intros [= <- _]; exists e; eauto.
  - destruct (normalised_cases (A := Value) e) as [(a & Ha & Hn) | (Ha & Hn)];
      rewrite Hn; intros [= <- _]; exists e; eauto.
Qed.

Lemma finish_rejects {World} (discard : bool) (p : Promise World Value)
    (w w' : World) (r : Value) :
  finish discard p w = (Throw r, w') → p w = (Throw r, w').
Proof.
  destruct discard; simpl; [| auto].
  unfold mbind, promise_bind. destruct (p w) as [[v | e] w1]; [discriminate | auto].
Qed.

(** X4.  Callers never see the transport's own error: whenever a verb
    method, or any method of any resource client, rejects, the reason is
    what [handleApiError] made of some caught value, whatever the
    configuration, the token getter and the transport do.  It is the
    [ApiError] that [handleApiError] returned or, when the message to report
    could not be converted to a string, the TypeError that it threw. *)
Theorem every_rejection_is_normalised {World}
    (adapter : Request → Promise World AxiosResponse) (config : ClientConfig World) :
  (∀ this m url body opts w w' r,
     BaseClient.constructor config = Normal this →
     verb adapter this m url body opts w = (Throw r, w') →
     ∃ e, (∃ a, handleApiError e = Normal a ∧ r = ApiError_value a)
        ∨ (handleApiError e = Throw r ∧ r = conversion_error))
  ∧ (∀ client op w w' r,
     new_ClipdeckClient config = Normal client →
     perform adapter client op w = (Throw r, w') →
     ∃ e, (∃ a, handleApiError e = Normal a ∧ r = ApiError_value a)
        ∨ (handleApiError e = Throw r ∧ r = conversion_error)).
Proof.
  split.
  - intros this m url body opts w w' r. apply verb_rejects_normalised.
  - intros client op w w' r Hn.
    destruct (perform_is_one_verb adapter client op)
      as (this & m & url & body & opts & discard & Hin & _ & _ & _ & ->).
    intros Hr. apply finish_rejects in Hr.
    exact (verb_rejects_normalised adapter config this m url body opts w w' r
             (clients_constructed config client this Hn Hin) Hr).
Qed.

Lemma every_rejection_is_normalised_witness :
  (∃ client a,
     new_ClipdeckClient (@plain_config unit) = Normal client
     ∧ perform (failing not_found_error) client (campaigns_getById "nonexistent") tt
       = (Throw (ApiError_value a), tt)
     ∧ code a = Str "NOT_FOUND")
  ∧ (∃ client e,
     new_ClipdeckClient (@plain_config unit) = Normal client
     ∧ perform (failing unconvertible_message_error) client
         (campaigns_getById "nonexistent") tt
       = (Throw conversion_error, tt)
     ∧ handleApiError e = Throw conversion_error).
Proof.
  split.
  - eexists. eexists. split; [reflexivity |].
    assert (Hrun : perform (failing not_found_error)
                     {| campaigns := plain_client; clips := plain_client;
                        users := plain_client; notifications := plain_client;
                        balance := plain_client; studios := plain_client;
                        disputes := plain_client |}
                     (campaigns_getById "nonexistent") tt
                   = (Throw (ApiError_value
                        (new_ApiError (Str "NOT_FOUND") "Campaign not found"
                           (Num 404) (Obj false [("campaignId", Str "abc")]))), tt))
      by reflexivity.
    destruct (proj2 (every_rejection_is_normalised (failing not_found_error) plain_config)
                _ _ _ _ _ eq_refl Hrun) as (e & _).
    split; [exact Hrun | reflexivity].
  - eexists.
    assert (Hrun : perform (failing unconvertible_message_error)
                     {| campaigns := plain_client; clips := plain_client;
                        users := plain_client; notifications := plain_client;
                        balance := plain_client; studios := plain_client;
                        disputes := plain_client |}
                     (campaigns_getById "nonexistent") tt
                   = (Throw conversion_error, tt))
      by reflexivity.
    destruct (proj2 (every_rejection_is_normalised (failing unconvertible_message_error)
                       plain_config)
                _ _ _ _ _ eq_refl Hrun) as (e & [(a & _ & Ha) | (He & _)]).
    + discriminate Ha.
    + exists e. split; [reflexivity |]. split; [exact Hrun | exact He].
Defined.

(** ** Failure paths *)

Lemma verb_getter_rejects {World} (adapter : Request → Promise World AxiosResponse)
    (config : ClientConfig World) (g : Promise World (option string))
    (this : BaseClient.t World) (m : Method) (url : string) (body : Value)
    (opts : option AxiosRequestConfig) (w w1 : World) (e : Value) :
  getToken config = Some g →
  BaseClient.constructor config = Normal this →
  g w = (Throw e, w1) →
  verb adapter this m url body opts w = (normalised e, w1).
Proof.
  intros Hg Hc Hw. rewrite (verb_pipeline adapter config this m url body opts w Hc).
  unfold prepare. rewrite Hg, authInterceptor_run, Hw. reflexivity.
Qed.

(** X3.  Normalisation is not idempotent.  An [ApiError] that is caught
    and normalised again is an Error instance without the transport's
    mark, so it comes out as [CLIENT_ERROR] with status 0 and no details,
    only its message surviving; this is what a caller gets when the token
    getter itself rejects with an [ApiError]. *)
Theorem renormalised_ApiError {World} (adapter : Request → Promise World AxiosResponse)
    (a : ApiError) :
  handleApiError (ApiError_value a)
  = Normal (new_ApiError (Str "CLIENT_ERROR") (message a) (Num 0) Undefined)
  ∧ ∀ config g this m url body opts w w1,
      getToken config = Some g →
      BaseClient.constructor config = Normal this →
      g w = (Throw (ApiError_value a), w1) →
      verb adapter this m url body opts w
      = (Throw (ApiError_value
                  (new_ApiError (Str "CLIENT_ERROR") (message a) (Num 0) Undefined)),
         w1).
Proof.
  assert (H : handleApiError (ApiError_value a)
              = Normal (new_ApiError (Str "CLIENT_ERROR") (message a) (Num 0) Undefined))
    by (destruct a; reflexivity).
  split; [exact H |].
  intros config g this m url body opts w w1 Hg Hc Hw.
  rewrite (verb_getter_rejects adapter config g this m url body opts w w1 _ Hg Hc Hw).
  unfold normalised. rewrite H. reflexivity.
Qed.

Lemma renormalised_ApiError_witness :
  ∃ this,
    BaseClient.constructor (token_config (@rejects unit (ApiError_value unauthorized_error)))
      = Normal this
    ∧ verb (answering Undefined) this GET "/users/me" Undefined None tt
      = (Throw (ApiError_value
                  (new_ApiError (Str "CLIENT_ERROR") "Token expired" (Num 0)
                     Undefined)), tt).
Proof.
  eexists. split; [reflexivity |].
  exact (proj2 (renormalised_ApiError (answering Undefined) unauthorized_error)
           (token_config (rejects (ApiError_value unauthorized_error))) _ _
           GET "/users/me" Undefined None tt tt eq_refl eq_refl eq_refl).
Defined.

(** X5.  When the transport rejects the prepared request with [e], the
    verb method rejects with what the response hook throws for [e], in the
    world the transport left: the [ApiError] that [handleApiError] returns
    for [e], with the response's status when [e] carries a response, or the
    TypeError it throws when the message cannot be converted. *)
Theorem transport_failure_normalised {World}
    (adapter : Request → Promise World AxiosResponse)
    (config : ClientConfig World) (this : BaseClient.t World)
    (m : Method) (url : string) (body : Value) (opts : option AxiosRequestConfig)
    (w w1 w2 : World) (q : Request) (e : Value) :
  BaseClient.constructor config = Normal this →
  prepare config
    (Axios.mergeConfig (defaults (BaseClient.http this)) m url (body_sent m body) opts) w
    = (Normal q, w1) →
  adapter q w1 = (Throw e, w2) →
  (∀ a, handleApiError e = Normal a →
     verb adapter this m url body opts w = (Throw (ApiError_value a), w2)
     ∧ (carries_response e → status a = read (read e "response") "status"))
  ∧ (∀ t, handleApiError e = Throw t →
     verb adapter this m url body opts w = (Throw t, w2) ∧ t = conversion_error)
  ∧ ∃ r, verb adapter this m url body opts w = (Throw r, w2).
Proof.
  intros Hc Hp Ha.
  assert (Hv : verb adapter this m url body opts w = (normalised e, w2)).
  { rewrite (verb_pipeline adapter config this m url body opts w Hc), Hp.
    unfold settled. rewrite Ha. reflexivity. }
  rewrite Hv. unfold normalised. split; [| split].
  - intros a He. rewrite He. split; [reflexivity |].
    intros Hr. rewrite (handle_response e Hr), (from_response_fields e Hr) in He.
    destruct (construct_fields _ _ _ _ _ He) as (_ & Hs & _). exact Hs.
  - intros t He. rewrite He. split; [reflexivity |].
    exact (handleApiError_throws e t He).
  - destruct (handleApiError e); eauto.
Qed.

Lemma transport_failure_normalised_witness :
  (∃ a, verb (failing bare_404_error) (@plain_client unit) GET "/campaigns/x"
          Undefined None tt = (Throw (ApiError_value a), tt)
      ∧ status a = Num 404)
  ∧ verb (failing unconvertible_message_error) (@plain_client unit) GET "/campaigns/x"
      Undefined None tt = (Throw conversion_error, tt).
Proof.
  split.
  - destruct (proj1 (transport_failure_normalised (failing bare_404_error) plain_config
                plain_client GET "/campaigns/x" Undefined None tt tt tt _ bare_404_error
                eq_refl eq_refl eq_refl) _ eq_refl) as (Hv & Hs).
    eexists. split; [exact Hv |]. apply Hs. split; reflexivity.
  - exact (proj1 (proj1 (proj2 (transport_failure_normalised
             (failing unconvertible_message_error) plain_config
             plain_client GET "/campaigns/x" Undefined None tt tt tt _
             unconvertible_message_error eq_refl eq_refl eq_refl)) _ eq_refl)).
Defined.

(** X6.  When the token getter rejects with [e], nothing is handed to the
    transport: the getter was asked once, the world is the one the getter
    left, and the call rejects with what the response hook throws for [e],
    the [ApiError] that [handleApiError] returns for [e] or the TypeError it
    throws. *)
Theorem getter_failure_sends_nothing {W} (adapter : Request → Promise W AxiosResponse)
    (g : Promise W (option string)) (config : ClientConfig (W * list Event))
    (this : BaseClient.t (W * list Event)) (m : Method) (url : string)
    (body : Value) (opts : option AxiosRequestConfig)
    (w w1 : W) (t : list Event) (e : Value) :
  getToken config = Some (watch_getter g) →
  BaseClient.constructor config = Normal this →
  g w = (Throw e, w1) →
  (∃ r, verb (watch_adapter adapter) this m url body opts (w, t)
        = (Throw r, (w1, (t ++ [TokenRequested])%list)))
  ∧ (∀ a, handleApiError e = Normal a →
     verb (watch_adapter adapter) this m url body opts (w, t)
     = (Throw (ApiError_value a), (w1, (t ++ [TokenRequested])%list)))
  ∧ (∀ r, handleApiError e = Throw r →
     r = conversion_error
     ∧ verb (watch_adapter adapter) this m url body opts (w, t)
       = (Throw r, (w1, (t ++ [TokenRequested])%list))).
Proof.
  intros Hg Hc Hw.
  rewrite (verb_getter_rejects (watch_adapter adapter) config (watch_getter g) this
             m url body opts (w, t) (w1, (t ++ [TokenRequested])%list) e Hg Hc)
    by (unfold watch_getter; rewrite Hw; reflexivity).
  unfold normalised. split; [| split].
  - destruct (handleApiError e); eauto.
  - intros a ->. reflexivity.
  - intros r He. rewrite He. split; [exact (handleApiError_throws e r He) | reflexivity].
Qed.

Lemma getter_failure_sends_nothing_witness :
  ∃ this,
    BaseClient.constructor
      (token_config (watch_getter (@rejects unit (Str "no session")))) = Normal this
    ∧ verb (watch_adapter (answering Undefined)) this GET "/users/me" Undefined None
        (tt, [])
      = (Throw (ApiError_value
                  (new_ApiError (Str "UNKNOWN_ERROR") "An unknown error occurred"
                     (Num 0) Undefined)),
         (tt, [TokenRequested])).
Proof.
  eexists. split; [reflexivity |].
  exact (proj1 (proj2 (getter_failure_sends_nothing (answering Undefined)
              (rejects (Str "no session"))
              (token_config (watch_getter (rejects (Str "no session")))) _
              GET "/users/me" Undefined None tt tt [] (Str "no session")
              eq_refl eq_refl eq_refl)) _ eq_refl).
Defined.

(** ** The auth hook *)

(** X7.  The auth hook touches nothing but the [Authorization] header:
    whenever it completes, the method, path, body, query, base address,
    timeout and every other header of the request are as they were, and
    the world is the one the getter left. *)
Theorem auth_hook_only_sets_Authorization {World} (g : Promise World (option string))
    (q q' : Request) (w w1 : World) :
  BaseClient.authInterceptor g q w = (Normal q', w1) →
  (∃ token, g w = (Normal token, w1))
  ∧ req_method q' = req_method q
  ∧ req_url q' = req_url q
  ∧ req_data q' = req_data q
  ∧ req_params q' = req_params q
  ∧ req_baseURL q' = req_baseURL q
  ∧ req_timeout q' = req_timeout q
  ∧ ∀ h, h ≠ "Authorization" → req_headers q' !! h = req_headers q !! h.
Proof.
  rewrite authInterceptor_run. destruct (g w) as [[token | e] w'];
    [| discriminate]. intros [= <- <-]. split; [eauto |].
  destruct (truthy (of_string token)); simpl; repeat (split; [reflexivity |]);
    intros h Hh; [| reflexivity].
  apply lookup_insert_ne. congruence.
Qed.

Lemma auth_hook_only_sets_Authorization_witness :
  ∃ q', BaseClient.authInterceptor (@resolves unit (Some "my-token"))
          (Axios.mergeConfig (defaults (BaseClient.http (@plain_client unit)))
             POST "/clips" (Str "payload") None) tt = (Normal q', tt)
      ∧ req_url q' = "/clips"
      ∧ req_data q' = Str "payload"
      ∧ req_headers q' !! "Content-Type" = Some "application/json".
Proof.
  eexists. split; [reflexivity |].
  destruct (auth_hook_only_sets_Authorization (@resolves unit (Some "my-token"))
              (Axios.mergeConfig (defaults (BaseClient.http (@plain_client unit)))
                 POST "/clips" (Str "payload") None)
              (set_Authorization "Bearer my-token"
                 (Axios.mergeConfig (defaults (BaseClient.http (@plain_client unit)))
                    POST "/clips" (Str "payload") None))
              tt tt eq_refl) as (_ & _ & Hu & Hd & _ & _ & _ & Hh).
  split; [exact Hu |]. split; [exact Hd |].
  transitivity
    (req_headers (Axios.mergeConfig (defaults (BaseClient.http (@plain_client unit)))
                    POST "/clips" (Str "payload") None) !! "Content-Type").
  - exact (Hh "Content-Type" ltac:(discriminate)).
  - apply lookup_singleton_eq.
Defined.

(** X14.  A getter that yields [null] or the empty string leaves the call
    exactly as a client without getter would make it: same request to the
    transport, same settlement, from the world the getter left. *)
Theorem null_token_is_no_getter {World} (adapter : Request → Promise World AxiosResponse)
    (base : option string) (tmo : option Number) (g : Promise World (option string))
    (authenticated anonymous : BaseClient.t World)
    (m : Method) (url : string) (body : Value) (opts : option AxiosRequestConfig)
    (w w1 : World) (token : option string) :
  BaseClient.constructor {| baseURL := base; getToken := Some g; timeout := tmo |}
    = Normal authenticated →
  BaseClient.constructor {| baseURL := base; getToken := None; timeout := tmo |}
    = Normal anonymous →
  g w = (Normal token, w1) →
  token = None ∨ token = Some "" →
  verb adapter authenticated m url body opts w
  = verb adapter anonymous m url body opts w1.
Proof.
  intros Hc Hc' Hw Hfalsy.
  rewrite (verb_pipeline adapter _ authenticated m url body opts w Hc).
  rewrite (verb_pipeline adapter _ anonymous m url body opts w1 Hc').
  destruct (constructor_total {| baseURL := base; getToken := Some g; timeout := tmo |})
    as (c1 & H1 & Hd1).
  destruct (@constructor_total World
              {| baseURL := base; getToken := None; timeout := tmo |})
    as (c2 & H2 & Hd2).
  rewrite Hc in H1. injection H1 as <-. rewrite Hc' in H2. injection H2 as <-.
  rewrite Hd1, Hd2. unfold prepare. simpl.
  rewrite authInterceptor_run, Hw.
  destruct Hfalsy as [-> | ->]; reflexivity.
Qed.

Lemma null_token_is_no_getter_witness :
  ∃ authenticated,
    BaseClient.constructor (token_config (@resolves unit None)) = Normal authenticated
    ∧ verb (answering (Str "ok")) authenticated GET "/balance" Undefined None tt
      = verb (answering (Str "ok")) plain_client GET "/balance" Undefined None tt.
Proof.
  eexists. split; [reflexivity |].
  exact (null_token_is_no_getter (answering (Str "ok")) (Some "https://api.test.com")
           None (resolves None) _ plain_client GET "/balance" Undefined None tt tt None
           eq_refl eq_refl eq_refl (or_introl eq_refl)).
Defined.

(** ** Every operation is one round trip *)

Section Operations.
Context {W : Type}.
Variable adapter : Request → Promise W AxiosResponse.
Variable base : option string.
Variable g : option (Promise W (option string)).
Variable tmo : option Number.

Lemma trace_finish (discard : bool) (p : Promise (W * list Event) Value)
    (s : W * list Event) :
  trace_of (finish discard p s) = trace_of (p s).
Proof.
  destruct discard; [apply trace_bind_ret | reflexivity].
Qed.

(** The trace of an operation: the token request, if a getter is
    configured, then the one merged request, with the header the hook may
    have set. *)
Lemma operation_trace (client : ClipdeckClient (W * list Event)) (op : Operation)
    (w : W) (t : list Event) :
  new_ClipdeckClient (watched_config base g tmo) = Normal client →
  ∃ m url body opts,
    (opts = None ∨ ∃ p, opts = with_params p)
    ∧ m ≠ PUT
    ∧ String.prefix (family_prefix op) url = true
    ∧ trace_of (perform (watch_adapter adapter) client op (w, t))
      = let merged := Axios.mergeConfig (defaults_of (watched_config base g tmo))
                        m url (body_sent m body) opts in
        match g with
        | None => (t ++ [Sent merged])%list
        | Some getter =>
            match getter w with
            | (Normal token, _) =>
                (t ++ [TokenRequested;
                       Sent (if truthy (of_string token)
                             then set_Authorization ("Bearer " ++ template token) merged
                             else merged)])%list
            | (Throw _, _) => (t ++ [TokenRequested])%list
            end
        end.
Proof.
  intros Hn.
  destruct (perform_is_one_verb (watch_adapter adapter) client op)
    as (this & m & url & body & opts & discard & Hin & Hopts & Hm & Hurl & ->).
  exists m, url, body, opts. do 3 (split; [assumption |]).
  rewrite trace_finish.
  pose proof (clients_constructed _ client this Hn Hin) as Hc.
  destruct (constructor_total (watched_config base g tmo)) as (this' & Hc' & Hd).
  rewrite Hc in Hc'. injection Hc' as <-.
  change (defaults_of (watched_config base g tmo))
    with {| defaults_baseURL := baseURL (watched_config base g tmo);
            defaults_timeout := number_or (timeout (watched_config base g tmo)) 10000;
            defaults_headers := {["Content-Type" := "application/json"]} |}.
  rewrite <- Hd. destruct g as [getter |].
  - apply (verb_trace_with_getter adapter (watched_config base (Some getter) tmo)
             getter this m url body opts w t eq_refl Hc).
  - apply (verb_trace_without_getter adapter (watched_config base None tmo)
             this m url body opts w t eq_refl Hc).
Qed.

Lemma merged_Content_Type (config : ClientConfig (W * list Event)) (m : Method)
    (url : string) (body : Value) (opts : option AxiosRequestConfig) :
  (opts = None ∨ ∃ p, opts = with_params p) →
  req_headers (Axios.mergeConfig (defaults_of config) m url body opts)
    !! "Content-Type" = Some "application/json".
Proof.
  intros [-> | (p & ->)]; simpl.
  - apply lookup_singleton_eq.
  - rewrite lookup_union, lookup_empty, lookup_singleton_eq. reflexivity.
Qed.

End Operations.

(** X8.  Every method of every resource client is a single round trip:
    the token getter, if configured, is asked once; exactly one request is
    handed to the transport, or none when the getter rejected; and this
    holds whether the transport then answers or fails, so nothing is
    retried. *)
Theorem operation_is_single_round_trip {W} (adapter : Request → Promise W AxiosResponse)
    (base : option string) (g : option (Promise W (option string))) (tmo : option Number)
    (client : ClipdeckClient (W * list Event)) (op : Operation)
    (w : W) (t : list Event) :
  new_ClipdeckClient (watched_config base g tmo) = Normal client →
  let after := trace_of (perform (watch_adapter adapter) client op (w, t)) in
  match g with
  | None => ∃ q, after = (t ++ [Sent q])%list
  | Some getter =>
      match getter w with
      | (Normal _, _) => ∃ q, after = (t ++ [TokenRequested; Sent q])%list
      | (Throw _, _) => after = (t ++ [TokenRequested])%list
      end
  end.
Proof.
  intros Hn.
  destruct (operation_trace adapter base g tmo client op w t Hn)
    as (m & url & body & opts & _ & _ & _ & Ht).
  simpl. rewrite Ht. destruct g as [getter |]; [| eauto].
  destruct (getter w) as [[token | e] w1]; eauto.
Qed.

Lemma operation_is_single_round_trip_witness :
  ∃ client q,
    new_ClipdeckClient (watched_config (W := unit) (Some "https://api.test.com")
                          (Some (resolves (Some "my-token"))) None) = Normal client
    ∧ trace_of (perform (watch_adapter (failing timeout_error)) client
                  (balance_requestPayout (Obj false [("amount", Num 100)])) (tt, []))
      = [TokenRequested; Sent q].
Proof.
  eexists.
  destruct (operation_is_single_round_trip (failing timeout_error)
              (Some "https://api.test.com") (Some (@resolves unit (Some "my-token")))
              None _ (balance_requestPayout (Obj false [("amount", Num 100)]))
              tt [] eq_refl) as (q & Hq).
  exists q. split; [reflexivity | exact Hq].
Defined.

(** X9.  The configuration is shared by all seven resource clients: every
    request any of their methods hands to the transport carries the
    configured base address, the effective timeout and
    [Content-Type: application/json], with or without a token getter. *)
Theorem every_request_carries_the_configuration {W}
    (adapter : Request → Promise W AxiosResponse)
    (base : option string) (g : option (Promise W (option string))) (tmo : option Number)
    (client : ClipdeckClient (W * list Event)) (op : Operation) (w : W) (q : Request) :
  new_ClipdeckClient (watched_config base g tmo) = Normal client →
  In (Sent q) (trace_of (perform (watch_adapter adapter) client op (w, []))) →
  req_baseURL q = base
  ∧ req_timeout q = number_or tmo 10000
  ∧ req_headers q !! "Content-Type" = Some "application/json".
Proof.
  intros Hn.
  destruct (operation_trace adapter base g tmo client op w [] Hn)
    as (m & url & body & opts & Hopts & _ & _ & ->).
  pose proof (merged_Content_Type (watched_config base g tmo) m url
                (body_sent m body) opts Hopts) as Hct.
  simpl. destruct g as [getter |].
  - destruct (getter w) as [[token | e] w1]; simpl.
    + intros [Heq | [Heq | []]]; [discriminate |]. injection Heq as <-.
      destruct (truthy (of_string token)); simpl.
      * split; [reflexivity |]. split; [reflexivity |].
        rewrite lookup_insert_ne by discriminate. exact Hct.
      * split; [reflexivity |]. split; [reflexivity |]. exact Hct.
    + intros [Heq | []]. discriminate.
  - intros [Heq | []]. injection Heq as <-.
    split; [reflexivity |]. split; [reflexivity |]. exact Hct.
Qed.

Lemma every_request_carries_the_configuration_witness :
  ∃ client q,
    new_ClipdeckClient (watched_config (W := unit) (Some "https://api.clipdeck.com")
                          None (Some (of_Z 5000))) = Normal client
    ∧ In (Sent q) (trace_of (perform (watch_adapter (answering Undefined)) client
                               disputes_getMine (tt, [])))
    ∧ req_baseURL q = Some "https://api.clipdeck.com"
    ∧ req_timeout q = 5000%Z.
Proof.
  eexists.
  exists (Axios.mergeConfig
            (defaults_of (watched_config (W := unit)
               (Some "https://api.clipdeck.com") None (Some (of_Z 5000))))
            GET "/disputes/mine" Undefined None).
  split; [reflexivity |].
  match goal with
  | |- ?A ∧ _ => assert (Hin : A) by (left; reflexivity)
  end.
  split; [exact Hin |].
  destruct (every_request_carries_the_configuration (answering Undefined)
              (Some "https://api.clipdeck.com") None (Some (of_Z 5000)) _ disputes_getMine
              tt _ eq_refl Hin) as (Hb & Ht & _).
  split; assumption.
Defined.

(** ** Methods that return nothing *)

Lemma discarded_result {World} (adapter : Request → Promise World AxiosResponse)
    (config : ClientConfig World) (this : BaseClient.t World) (url : string)
    (w w1 w2 : World) (q : Request) (response : AxiosResponse) :
  BaseClient.constructor config = Normal this →
  prepare config
    (Axios.mergeConfig (defaults (BaseClient.http this)) DELETE url Undefined None) w
    = (Normal q, w1) →
  adapter q w1 = (Normal response, w2) →
  (_ ← BaseClient.delete adapter this url None; mret Undefined) w
  = (Normal Undefined, w2).
Proof.
  intros Hc Hp Ha. unfold mbind at 1, promise_bind at 1.
  change (BaseClient.delete adapter this url None)
    with (verb adapter this DELETE url Undefined None).
  rewrite (verb_pipeline adapter config this DELETE url Undefined None w Hc).
  simpl body_sent. rewrite Hp. unfold settled. rewrite Ha. reflexivity.
Qed.

(** X10.  The two [remove] methods await the DELETE and return nothing:
    when the transport answers, they resolve to [undefined] whatever body
    the response carries. *)
Theorem remove_discards_the_response {World}
    (adapter : Request → Promise World AxiosResponse)
    (config : ClientConfig World) (this : BaseClient.t World)
    (id : string) (w w1 w2 : World) (q : Request) (response : AxiosResponse) :
  BaseClient.constructor config = Normal this →
  adapter q w1 = (Normal response, w2) →
  (prepare config
     (Axios.mergeConfig (defaults (BaseClient.http this)) DELETE
        ("/notifications/" ++ id) Undefined None) w = (Normal q, w1) →
   NotificationClient.remove adapter this id w = (Normal Undefined, w2))
  ∧ (prepare config
       (Axios.mergeConfig (defaults (BaseClient.http this)) DELETE
          ("/studios/" ++ id) Undefined None) w = (Normal q, w1) →
     StudioClient.remove adapter this id w = (Normal Undefined, w2)).
Proof.
  intros Hc Ha. split; intros Hp.
  - exact (discarded_result adapter config this _ w w1 w2 q response Hc Hp Ha).
  - exact (discarded_result adapter config this _ w w1 w2 q response Hc Hp Ha).
Qed.

Lemma remove_discards_the_response_witness :
  NotificationClient.remove (answering (Obj false [("deleted", Bool true)]))
    (@plain_client unit) "notif-1" tt = (Normal Undefined, tt).
Proof.
  exact (proj1 (remove_discards_the_response
                  (answering (Obj false [("deleted", Bool true)]))
                  plain_config plain_client "notif-1" tt tt tt _ _ eq_refl eq_refl)
           eq_refl).
Defined.

(** ** Path parameters *)

Lemma append_assoc (s1 s2 s3 : string) :
  (s1 ++ s2) ++ s3 = s1 ++ s2 ++ s3.
Proof.
  induction s1 as [| c s1 IH]; [reflexivity |].
  change (String c ((s1 ++ s2) ++ s3) = String c (s1 ++ s2 ++ s3)).
  rewrite IH. reflexivity.
Qed.

(** X11.  Path parameters are put into the URL as they are, with no
    escaping or validation, so an identifier that contains the rest of a
    sibling route is that route: the "by id" reads are the same calls as
    the nested reads of the same resource. *)
Theorem path_parameters_are_verbatim {World}
    (adapter : Request → Promise World AxiosResponse) (this : BaseClient.t World)
    (id : string) :
  CampaignClient.getById adapter this (id ++ "/participants")
    = CampaignClient.getParticipants adapter this id
  ∧ ClipClient.getById adapter this (id ++ "/stats")
    = ClipClient.getStats adapter this id
  ∧ ClipClient.getById adapter this (id ++ "/stats/history")
    = ClipClient.getStatsHistory adapter this id
  ∧ StudioClient.getBySlug adapter this (id ++ "/members")
    = StudioClient.getMembers adapter this id
  ∧ UserClient.getById adapter this ("username/" ++ id)
    = UserClient.getByUsername adapter this id
  ∧ UserClient.getById adapter this "me" = UserClient.getMe adapter this
  ∧ UserClient.getById adapter this "me/profile" = UserClient.getProfile adapter this
  ∧ StudioClient.getBySlug adapter this "invites" = StudioClient.getInvites adapter this
  ∧ DisputeClient.getById adapter this "mine" = DisputeClient.getMine adapter this.
Proof.
  autounfold with clients.
  repeat split; try reflexivity;
    rewrite <- ?append_assoc; reflexivity.
Qed.

(** ** The routes of markAsRead *)

Lemma length_append (s1 s2 : string) :
  String.length (s1 ++ s2) = String.length s1 + String.length s2.
Proof.
  induction s1 as [| c s1 IH]; [reflexivity |].
  change (S (String.length (s1 ++ s2)) = S (String.length s1 + String.length s2)).
  rewrite IH. reflexivity.
Qed.

Lemma one_route_is_not_all (id : string) :
  "/notifications/" ++ id ++ "/read" ≠ "/notifications/read"
  ∧ "/notifications/" ++ id ++ "/read" ≠ "/notifications/read-all".
Proof.
  split; intros H.
  - apply (f_equal String.length) in H.
    rewrite !length_append in H. simpl in H. lia.
  - pose proof (f_equal String.length H) as Hlen.
    rewrite !length_append in Hlen. simpl in Hlen.
    destruct id as [| a [| b [| c [| d rest]]]]; simpl in Hlen; try lia.
    cbv in H. discriminate H.
Qed.

(** X12.  For a client without token getter, [markAsRead] hands the
    transport one PATCH, and that request goes to the mark-all route
    [/notifications/read] exactly when the id is omitted or empty; with a
    non-empty id it never goes to [/notifications/read-all] either. *)
Theorem markAsRead_marks_all_iff_no_id {W} (adapter : Request → Promise W AxiosResponse)
    (config : ClientConfig (W * list Event))
    (this : BaseClient.t (W * list Event)) (id : option string)
    (w : W) (t : list Event) :
  getToken config = None →
  BaseClient.constructor config = Normal this →
  ∃ q, trace_of (NotificationClient.markAsRead (watch_adapter adapter) this id (w, t))
       = (t ++ [Sent q])%list
     ∧ req_method q = PATCH
     ∧ (req_url q = "/notifications/read" ↔ id = None ∨ id = Some "")
     ∧ req_url q ≠ "/notifications/read-all".
Proof.
  intros Hg Hc. unfold NotificationClient.markAsRead.
  destruct id as [s |]; [destruct (decide (s = "")) as [-> | Hne] |].
  - simpl. eexists. split.
    + apply (verb_trace_without_getter adapter config this PATCH _ Undefined None
               w t Hg Hc).
    + simpl. split; [reflexivity |]. split; [tauto | discriminate].
  - rewrite (non_empty_truthy s Hne). eexists. split.
    + apply (verb_trace_without_getter adapter config this PATCH _ Undefined None
               w t Hg Hc).
    + simpl. split; [reflexivity |].
      destruct (one_route_is_not_all s) as (H1 & H2). split; [| exact H2].
      split; [intros H; contradiction |].
      intros [H | H]; [discriminate | injection H as ->; contradiction].
  - simpl. eexists. split.
    + apply (verb_trace_without_getter adapter config this PATCH _ Undefined None
               w t Hg Hc).
    + simpl. split; [reflexivity |]. split; [tauto | discriminate].
Qed.

Lemma markAsRead_marks_all_iff_no_id_witness :
  ∃ q, trace_of (NotificationClient.markAsRead (watch_adapter (answering Undefined))
                   (@plain_client (unit * list Event)) None (tt, []))
       = [Sent q]
     ∧ req_url q = "/notifications/read".
Proof.
  destruct (markAsRead_marks_all_iff_no_id (answering Undefined) plain_config
              plain_client None tt [] eq_refl eq_refl) as (q & Ht & _ & Hu & _).
  exists q. split; [exact Ht |]. apply Hu. left. reflexivity.
Defined.

(** ** Where the operations go *)

(** X13.  Each resource client stays within its own family: every request
    a method hands to the transport goes to a path under the family's
    prefix, whatever the identifiers given; no method uses PUT; and the
    GET and DELETE requests carry no body. *)
Theorem operations_stay_in_their_family {W} (adapter : Request → Promise W AxiosResponse)
    (base : option string) (g : option (Promise W (option string))) (tmo : option Number)
    (client : ClipdeckClient (W * list Event)) (op : Operation) (w : W) (q : Request) :
  new_ClipdeckClient (watched_config base g tmo) = Normal client →
  In (Sent q) (trace_of (perform (watch_adapter adapter) client op (w, []))) →
  String.prefix (family_prefix op) (req_url q) = true
  ∧ req_method q ≠ PUT
  ∧ (req_method q = GET ∨ req_method q = DELETE → req_data q = Undefined).
Proof.
  intros Hn.
  destruct (operation_trace adapter base g tmo client op w [] Hn)
    as (m & url & body & opts & _ & Hm & Hurl & ->).
  assert (Hbody : m = GET ∨ m = DELETE → body_sent m body = Undefined)
    by (intros [-> | ->]; reflexivity).
  simpl. destruct g as [getter |].
  - destruct (getter w) as [[token | e] w1]; simpl.
    + intros [Heq | [Heq | []]]; [discriminate |]. injection Heq as <-.
      destruct (truthy (of_string token)); simpl; auto.
    + intros [Heq | []]. discriminate.
  - intros [Heq | []]. injection Heq as <-. simpl. auto.
Qed.

Lemma operations_stay_in_their_family_witness :
  ∃ client q,
    new_ClipdeckClient (watched_config (W := unit) (Some "https://api.test.com")
                          None None) = Normal client
    ∧ In (Sent q) (trace_of (perform (watch_adapter (answering Undefined)) client
                               (users_getById "user_42") (tt, [])))
    ∧ String.prefix "/users" (req_url q) = true
    ∧ req_method q = GET.
Proof.
  eexists.
  exists (Axios.mergeConfig
            (defaults_of (watched_config (W := unit) (Some "https://api.test.com")
               None None))
            GET "/users/user_42" Undefined None).
  split; [reflexivity |].
  match goal with
  | |- ?A ∧ _ => assert (Hin : A) by (left; reflexivity)
  end.
  split; [exact Hin |].
  destruct (operations_stay_in_their_family (answering Undefined)
              (Some "https://api.test.com") None None _
              (users_getById "user_42") tt _ eq_refl Hin) as (Hp & _ & _).
  split; [exact Hp | reflexivity].
Defined.
